(** * vana-react: the embed message router and the share text composer

    A shallow embedding of the two widgets of the library:

    - [VanaAppUploadWidget] (src/components/VanaAppUploadWidget.tsx): the
      [handleMessage] listener that bridges the host page and the embedded
      iframe over [postMessage];
    - [VanaAppSocialShareWidget], in its two versions: the decorated one
      ([generateShareText] with intro, emoji, note, call-to-action and
      hashtag, followed by a countdown) and the suffix one
      ([generateShareText] = content + suffix, followed by instructions).

    JavaScript values that cross the window boundary are modelled by the
    type [Js.value]; the callbacks of the host page, [postMessage], the
    clipboard and the timers are recorded as effects in the order the code
    performs them. *)

From Stdlib Require Import ZArith String Ascii List Bool.
From stdpp Require Import base option list gmap strings pretty.

Open Scope string_scope.

(** ** JavaScript values *)

Module Js.

(** A number is a double.  [Int z] is a safe integer, below 2^53 in
    magnitude, which [Number::toString] prints digit for digit; both zeros
    are [Int 0].  [Other shown] is any other finite double (a fraction, or
    an integer from 2^53 on), which is not zero, given by what
    [Number::toString] prints for it, as "0.5" or "1e+21". *)
Inductive number : Type :=
  | Int (z : Z) (safe : Is_true (Z.abs z <? 2 ^ 53)%Z)
  | NaN
  | Infinity (negative : bool)
  | Other (shown : string).

Definition numberTruthy (n : number) : bool :=
  match n with
  | Int z _ => negb (z =? 0)%Z
  | NaN => false
  | Infinity _ | Other _ => true
  end.

(** [Number::toString] *)
Definition numberToString (n : number) : string :=
  match n with
  | Int z _ => pretty z
  | NaN => "NaN"
  | Infinity false => "Infinity"
  | Infinity true => "-Infinity"
  | Other shown => shown
  end.

(** The values a message can carry after the structured clone of
    [postMessage]: primitives and plain objects.  Arrays, dates and the
    other cloneable exotic objects are left out. *)
#[warnings="-register-all"]
Inductive value : Type :=
  | Undefined
  | Null
  | Bool (b : bool)
  | Number (n : number)
  | Str (s : string)
  | Object (props : gmap string value).

(** [ToBoolean]: what [if (v)], [v && w] and [v || w] test. *)
Definition truthy (v : value) : bool :=
  match v with
  | Undefined | Null => false
  | Bool b => b
  | Number n => numberTruthy n
  | Str s => negb (s =? "")
  | Object _ => true
  end.

(** [a || b] *)
Definition or (a b : value) : value := if truthy a then a else b.

(** [v.k] for [v] other than [undefined] and [null] (on those the read
    throws).  A data object has the properties it carries; a primitive has
    none of the property names the widget reads. *)
Definition get (v : value) (k : string) : value :=
  match v with
  | Object props => default Undefined (props !! k)
  | _ => Undefined
  end.

(** [v === s] for a string literal [s], as [switch] compares. *)
Definition strict_eq_str (v : value) (s : string) : bool :=
  match v with
  | Str t => t =? s
  | _ => false
  end.

(** [ToString], as a template literal [`${v}`] applies it.  [None] is the
    [TypeError] of an object that cannot be converted to a primitive: a
    cloned object holds data only, so an own [toString] property is not
    callable and hides [Object.prototype.toString]. *)
Definition to_string (v : value) : option string :=
  match v with
  | Undefined => Some "undefined"
  | Null => Some "null"
  | Bool true => Some "true"
  | Bool false => Some "false"
  | Number n => Some (numberToString n)
  | Str s => Some s
  | Object props =>
      match props !! "toString" with
      | None => Some "[object Object]"
      | Some _ => None
      end
  end.

Definition of_option {A} (inj : A -> value) (o : option A) : value :=
  match o with
  | Some a => inj a
  | None => Undefined
  end.

End Js.

(** ** The embed message router: VanaAppUploadWidget *)

Module UploadWidget.

(** The props [handleMessage] closes over.  [onResult], [onError] and
    [onAuth] are required callbacks: a call to one of them is an effect.
    [onClose] tells whether the optional callback was supplied. *)
Record VanaAppUploadWidgetProps := {
  appId : string;
  onClose : bool;
  iframeOrigin : option string;
  schemaId : option Js.number;
  prompt : option string;
  theme : option (gmap string string)
}.

(** The default of the destructured parameter:
    [iframeOrigin = "https://app.vana.com"]. *)
Definition iframeOrigin_of (props : VanaAppUploadWidgetProps) : string :=
  default "https://app.vana.com" (iframeOrigin props).

Definition iframeSrc (props : VanaAppUploadWidgetProps) : string :=
  iframeOrigin_of props +:+ "/embed/upload".

(** The part of the host page the handler meets:
    [window.location.origin], [process.env.NODE_ENV], and the CSS engine
    behind [iframe.style.height = text].  [cssHeight text] is the value
    that the style holds after the assignment, or [None] when the engine
    discards the text because it is no valid height. *)
Record Host := {
  location_origin : string;
  NODE_ENV : string;
  cssHeight : string -> option string
}.

(** The iframe element behind [iframeRef.current]: whether it has a
    [contentWindow] (an iframe outside a document has none), and the
    value of [style.height]. *)
Record HTMLIFrameElement := {
  contentWindow : bool;
  style_height : string
}.

(** [iframeRef.current], [None] for [null]. *)
Definition IframeRef := option HTMLIFrameElement.

Record MessageEvent := {
  origin : string;
  data : Js.value
}.

(** The rest [data] of the destructuring [{ type, ...data }]: for an
    object its properties without [type]; for a string its characters by
    index, for which the string stands; nothing for another primitive. *)
Inductive Rest :=
  | RestProps (props : gmap string Js.value)
  | RestChars (s : string).

Definition restOf (v : Js.value) : Rest :=
  match v with
  | Js.Object props => RestProps (delete "type" props)
  | Js.Str s => RestChars s
  | _ => RestProps ∅
  end.

(** [data.k] for the names that the handler reads, none of which is an
    index. *)
Definition restGet (data : Rest) (k : string) : Js.value :=
  match data with
  | RestProps props => default Js.Undefined (props !! k)
  | RestChars _ => Js.Undefined
  end.

(** What one run of the handler does, in order.  [SetStyleHeight text] is
    the assignment [iframe.style.height = text]. *)
Inductive Effect :=
  | OnResult (result : Js.value)
  | OnError (error : Js.value)
  | OnAuth (walletAddress : Js.value)
  | OnClose
  | PostMessage (message : Js.value) (targetOrigin : string)
  | SetStyleHeight (height : string)
  | ConsoleWarn (text : string) (data : Rest).

(** The handler returns normally after its effects, or throws a
    [TypeError] before any effect. *)
Inductive Completion :=
  | Normal (effects : list Effect)
  | Throw.

Definition themeValue (t : gmap string string) : Js.value :=
  Js.Object (Js.Str <$> t).

(** The object literal posted on [ready]. *)
Definition configMessage (props : VanaAppUploadWidgetProps) (host : Host) : Js.value :=
  Js.Object
    (<["type" := Js.Str "config"]>
     (<["appId" := Js.Str (appId props)]>
     (<["schemaId" := Js.of_option Js.Number (schemaId props)]>
     (<["aiPrompt" := Js.of_option Js.Str (prompt props)]>
     (<["embeddingOrigin" := Js.Str (location_origin host)]>
     (<["theme" := Js.of_option themeValue (theme props)]> ∅)))))).

(** [iframeRef.current?.contentWindow], as a condition. *)
Definition hasContentWindow (iframeRef : IframeRef) : bool :=
  match iframeRef with
  | Some iframe => contentWindow iframe
  | None => false
  end.

Definition handleMessage (props : VanaAppUploadWidgetProps) (host : Host)
    (iframeRef : IframeRef) (event : MessageEvent) : Completion :=
  if negb (origin event =? iframeOrigin_of props) then Normal []
  else
    match data event with
    | Js.Undefined | Js.Null => Throw
    | _ =>
      let type := Js.get (data event) "type" in
      let data := restOf (data event) in
      if Js.strict_eq_str type "ready" then
        if hasContentWindow iframeRef
        then Normal [PostMessage (configMessage props host) (iframeOrigin_of props)]
        else Normal []
      else if Js.strict_eq_str type "relay" then
        if hasContentWindow iframeRef && Js.truthy (restGet data "data")
        then Normal [PostMessage (restGet data "data") (iframeOrigin_of props)]
        else Normal []
      else if Js.strict_eq_str type "auth" then
        if Js.truthy (restGet data "walletAddress")
        then Normal [OnAuth (restGet data "walletAddress")]
        else Normal []
      else if Js.strict_eq_str type "complete" then
        if Js.truthy (restGet data "result")
        then Normal [OnResult (restGet data "result")]
        else Normal []
      else if Js.strict_eq_str type "error" then
        let errorMessage :=
          Js.or (Js.or (restGet data "message") (restGet data "error"))
                (Js.Str "An error occurred") in
        Normal [OnError errorMessage]
      else if Js.strict_eq_str type "resize" then
        if Js.truthy (restGet data "height") && bool_decide (is_Some iframeRef)
        then
          match Js.to_string (restGet data "height") with
          | Some h => Normal [SetStyleHeight (h +:+ "px")]
          | None => Throw
          end
        else Normal []
      else if Js.strict_eq_str type "close" then
        if onClose props then Normal [OnClose] else Normal []
      else
        if NODE_ENV host =? "development" then
          match Js.to_string type with
          | Some t =>
              Normal [ConsoleWarn ("[VanaAppUploadWidget] Unknown message type: " +:+ t) data]
          | None => Throw
          end
        else Normal []
    end.

(** The effect of an effect on the iframe element: only the assignment to
    [style.height] changes it, and only when the CSS engine takes the
    text. *)
Definition perform (host : Host) (iframeRef : IframeRef) (e : Effect) : IframeRef :=
  match e with
  | SetStyleHeight text =>
      match iframeRef, cssHeight host text with
      | Some iframe, Some height =>
          Some {| contentWindow := contentWindow iframe; style_height := height |}
      | _, _ => iframeRef
      end
  | _ => iframeRef
  end.

Definition effects_of (c : Completion) : list Effect :=
  match c with
  | Normal effects => effects
  | Throw => []
  end.

(** The iframe element after one message. *)
Definition iframe_after (props : VanaAppUploadWidgetProps) (host : Host)
    (iframeRef : IframeRef) (event : MessageEvent) : IframeRef :=
  foldl (perform host) iframeRef (effects_of (handleMessage props host iframeRef event)).

(** The listener stays registered across messages (an exception in a
    listener is reported and the next event is still dispatched): the
    completions of a sequence of events, and the iframe element after it. *)
Fixpoint dispatch (props : VanaAppUploadWidgetProps) (host : Host)
    (iframeRef : IframeRef) (events : list MessageEvent) : list Completion * IframeRef :=
  match events with
  | [] => ([], iframeRef)
  | event :: rest =>
      let c := handleMessage props host iframeRef event in
      let '(cs, final) := dispatch props host (iframe_after props host iframeRef event) rest in
      (c :: cs, final)
  end.

(** Two states of [iframeRef.current] that agree on what the handler reads:
    whether there is an element, and whether it has a content window. *)
Definition same_frame (r r' : IframeRef) : Prop :=
  hasContentWindow r = hasContentWindow r'
  /\ bool_decide (is_Some r) = bool_decide (is_Some r').

(** Messages as the embedded frame builds them. *)
Definition message (type : string) (fields : gmap string Js.value) : Js.value :=
  Js.Object (<["type" := Js.Str type]> fields).

End UploadWidget.

(** ** Strings, as the share widget uses them *)

Module JsString.

(** A [string] holds the UTF-8 bytes of the JavaScript string.  The
    searches below look for ASCII text, which occurs in the bytes exactly
    where it occurs in the UTF-16 code units. *)

Definition LF : string := String "010" "".

(** [s.includes(searchString)] *)
Definition includes (s searchString : string) : bool :=
  match index 0 searchString s with
  | Some _ => true
  | None => false
  end.

(** [s.replace(searchValue, replaceValue)] for a string [searchValue] and
    a [replaceValue] without [$]: the first occurrence is replaced. *)
Definition replace (s searchValue replaceValue : string) : string :=
  match index 0 searchValue s with
  | Some pos =>
      substring 0 pos s +:+ replaceValue
      +:+ substring (pos + String.length searchValue)
                    (String.length s - (pos + String.length searchValue)) s
  | None => s
  end.

Definition upper (c : ascii) : ascii :=
  let n := nat_of_ascii c in
  if ((97 <=? n) && (n <=? 122))%nat then ascii_of_nat (n - 32) else c.

Definition lower (c : ascii) : ascii :=
  let n := nat_of_ascii c in
  if ((65 <=? n) && (n <=? 90))%nat then ascii_of_nat (n + 32) else c.

Fixpoint mapChars (f : ascii -> ascii) (s : string) : string :=
  match s with
  | EmptyString => EmptyString
  | String c s' => String (f c) (mapChars f s')
  end.

(** On ASCII text, which is all the widget applies them to. *)
Definition toUpperCase : string -> string := mapChars upper.
Definition toLowerCase : string -> string := mapChars lower.

(** [s.charAt(0)] and [s.slice(1)] *)
Definition charAt0 (s : string) : string :=
  match s with
  | EmptyString => EmptyString
  | String c _ => String c EmptyString
  end.
Definition slice1 (s : string) : string :=
  match s with
  | EmptyString => EmptyString
  | String _ s' => s'
  end.

Definition hexDigit (n : nat) : ascii :=
  match get n "0123456789ABCDEF" with
  | Some c => c
  | None => "0"%char
  end.

(** The characters [encodeURIComponent] leaves alone:
    letters, digits and [- _ . ! ~ * ' ( )]. *)
Definition unreserved (c : ascii) : bool :=
  let n := nat_of_ascii c in
  (((65 <=? n) && (n <=? 90)) || ((97 <=? n) && (n <=? 122))
   || ((48 <=? n) && (n <=? 57))
   || existsb (Nat.eqb n) [45; 95; 46; 33; 126; 42; 39; 40; 41])%nat.

(** [encodeURIComponent(s)]: every other byte of the UTF-8 encoding
    becomes [%XX]. *)
Fixpoint encodeURIComponent (s : string) : string :=
  match s with
  | EmptyString => EmptyString
  | String c s' =>
      if unreserved c then String c (encodeURIComponent s')
      else
        let n := nat_of_ascii c in
        String "%" (String (hexDigit (n / 16)) (String (hexDigit (n mod 16))
          (encodeURIComponent s')))
  end.

(** Whether a character occurs in a string. *)
Fixpoint has_char (c : ascii) (s : string) : bool :=
  match s with
  | EmptyString => false
  | String a s' => Ascii.eqb a c || has_char c s'
  end.

End JsString.

(** ** The platform table, the same in both versions of the share widget *)

Module SharePlatforms.
Import JsString.

Inductive SocialPlatform := twitter | facebook | linkedin | instagram.

#[global] Instance SocialPlatform_eq_dec : EqDecision SocialPlatform.
Proof. solve_decision. Defined.

Definition platformName (p : SocialPlatform) : string :=
  match p with
  | twitter => "twitter"
  | facebook => "facebook"
  | linkedin => "linkedin"
  | instagram => "instagram"
  end.

(** [getUrl] of the entry of [SHARE_BUTTONS] for the platform;
    [origin] is [window.location.origin]. *)
Definition getUrl (origin : string) (p : SocialPlatform) (text : string) : string :=
  match p with
  | twitter => "https://twitter.com/intent/tweet?text=" +:+ encodeURIComponent text
  | facebook =>
      "https://www.facebook.com/sharer/sharer.php?u=" +:+ encodeURIComponent origin
      +:+ "&quote=" +:+ encodeURIComponent text
  | linkedin =>
      "https://www.linkedin.com/feed/?shareActive=true&text=" +:+ encodeURIComponent text
  | instagram => "https://www.instagram.com/"
  end.

Definition SHARE_BUTTONS : list SocialPlatform := [twitter; facebook; linkedin; instagram].

(** [config.platform.charAt(0).toUpperCase() + config.platform.slice(1)] *)
Definition displayName (p : SocialPlatform) : string :=
  toUpperCase (charAt0 (platformName p)) +:+ slice1 (platformName p).

End SharePlatforms.

(** ** The share widget, decorated version with countdown *)

Module Decorated.
Import JsString SharePlatforms.

(** The props the click handler depends on.  An optional prop is [None]
    when the caller omits it; [onCopySuccess] and [onShare] tell whether
    the optional callback was supplied. *)
Record VanaAppSocialShareWidgetProps := {
  appName : string;
  shareContent : string;
  shareEmoji : option string;
  funnyNote : option string;
  callToAction : option string;
  hashtag : option string;
  onCopySuccess : bool;
  onShare : bool
}.

(** The defaults of the destructured parameters. *)
Definition shareEmoji_of (props : VanaAppSocialShareWidgetProps) : string :=
  default "" (shareEmoji props).
Definition funnyNote_of (props : VanaAppSocialShareWidgetProps) : string :=
  default "" (funnyNote props).
Definition callToAction_of (props : VanaAppSocialShareWidgetProps) : string :=
  default "Try @ app.vana.com" (callToAction props).
Definition hashtag_of (props : VanaAppSocialShareWidgetProps) : string :=
  default "#DATAREVOLUTION" (hashtag props).

Definition generateShareText (props : VanaAppSocialShareWidgetProps)
    (platform : SocialPlatform) : string :=
  let emoji :=
    if negb (shareEmoji_of props =? "") then shareEmoji_of props +:+ " " else "" in
  let intro := "Tried Vana's " +:+ appName props +:+ ", look what I got:" +:+ LF +:+ LF in
  let content := emoji +:+ shareContent props in
  let note :=
    if negb (funnyNote_of props =? "") then LF +:+ LF +:+ funnyNote_of props else "" in
  let cta := LF +:+ LF +:+ callToAction_of props in
  let tag := LF +:+ hashtag_of props in
  let needsFullUrl :=
    match platform with
    | instagram | facebook => true
    | _ => false
    end in
  let ctaWithUrl :=
    if needsFullUrl then replace cta "app.vana.com" "https://app.vana.com" else cta in
  intro +:+ content +:+ note +:+ ctaWithUrl +:+ tag.

(** The toast message; its [duration] is [Infinity] throughout and is
    left out. *)
Record Toast := {
  title : string;
  description : string;
  progress : Z
}.

Inductive Effect :=
  | WriteText (text : string)
  | OnShare (platform : string)
  | OnCopySuccess (platform shareText : string) (openDelayMs : Z)
  | SetInternalToast (message : Toast)
  | SetInterval (timer : nat) (delay : Z) (platform url : string)
  | ClearInterval (timer : nat).

(** [copyAndOpenWithCountdown(text, platform, url)], up to the return of
    the click handler.  [toastTimerRef] is [toastTimerRef.current] and
    [timer] the handle that [setInterval] returns; the result pairs the
    effects with the new [toastTimerRef.current].  The interval callback
    (the countdown in floating point that ends in [window.open(url)])
    runs later and is not part of the click. *)
Definition copyAndOpenWithCountdown (props : VanaAppSocialShareWidgetProps)
    (toastTimerRef : option nat) (timer : nat) (text platform url : string)
    : list Effect * option nat :=
  let countdown := 3%Z in
  (([WriteText text]
    ++ (if onShare props then [OnShare (toLowerCase platform)] else [])
    ++ (if onCopySuccess props then [OnCopySuccess (toLowerCase platform) text 3000] else [])
    ++ [SetInternalToast
          {| title := "Copied to clipboard!";
             description := "Opening " +:+ platform +:+ " in " +:+ pretty countdown
                            +:+ "... Paste your message there.";
             progress := 100 |};
        SetInterval timer 100 platform url]
    ++ match toastTimerRef with
       | Some old => [ClearInterval old]
       | None => []
       end)%list,
   Some timer).

(** [handleClick] of the button of a platform. *)
Definition handleClick (props : VanaAppSocialShareWidgetProps) (origin : string)
    (toastTimerRef : option nat) (timer : nat) (platform : SocialPlatform)
    : list Effect * option nat :=
  let text := generateShareText props platform in
  let url := getUrl origin platform text in
  copyAndOpenWithCountdown props toastTimerRef timer text (displayName platform) url.

Definition writes (e : Effect) : option string :=
  match e with
  | WriteText text => Some text
  | _ => None
  end.

(** The texts written to the clipboard, in order. *)
Definition clipboardWrites (effects : list Effect) : list string :=
  omap writes effects.

(** The strings the caller supplied. *)
Definition supplied (props : VanaAppSocialShareWidgetProps) : list string :=
  ([appName props; shareContent props]
   ++ option_list (shareEmoji props) ++ option_list (funnyNote props)
   ++ option_list (callToAction props) ++ option_list (hashtag props))%list.

End Decorated.

(** ** The share widget, suffix version with instructions *)

Module Suffix.
Import JsString SharePlatforms.

Record VanaAppSocialShareWidgetProps := {
  shareContent : string;
  suffix : option string;
  hideToast : option bool;
  toastDuration : option Z;
  onCopySuccess : bool;
  onShare : bool
}.

Definition defaultSuffix : string :=
  LF +:+ LF +:+ "Try @ app.vana.com" +:+ LF +:+ "#datarevolution".

Definition suffix_of (props : VanaAppSocialShareWidgetProps) : string :=
  default defaultSuffix (suffix props).
Definition hideToast_of (props : VanaAppSocialShareWidgetProps) : bool :=
  default false (hideToast props).
Definition toastDuration_of (props : VanaAppSocialShareWidgetProps) : Z :=
  default 4000%Z (toastDuration props).

Definition generateShareText (props : VanaAppSocialShareWidgetProps) : string :=
  shareContent props +:+ suffix_of props.

Record Toast := {
  title : string;
  description : string;
  duration : Z
}.

Inductive Effect :=
  | WriteText (text : string)
  | OnShare (platform : string)
  | OnCopySuccess (platform shareText : string)
  | SetInternalToast (message : Toast)
  | ClearTimeout (timer : nat)
  | SetTimeout (timer : nat) (delay : Z).

(** [copyAndShowInstructions(text, platform)]; [toastTimerRef] and [timer]
    as in the decorated version, [timer] being what [setTimeout] returns. *)
Definition copyAndShowInstructions (props : VanaAppSocialShareWidgetProps)
    (toastTimerRef : option nat) (timer : nat) (text platform : string)
    : list Effect * option nat :=
  let callbacks :=
    ([WriteText text]
     ++ (if onShare props then [OnShare (toLowerCase platform)] else [])
     ++ (if onCopySuccess props then [OnCopySuccess (toLowerCase platform) text] else []))%list in
  if negb (hideToast_of props) then
    ((callbacks
      ++ [SetInternalToast
            {| title := "Copied to clipboard!";
               description := "Now go to " +:+ platform
                              +:+ " and paste your message to share.";
               duration := toastDuration_of props |}]
      ++ match toastTimerRef with
         | Some old => [ClearTimeout old]
         | None => []
         end
      ++ [SetTimeout timer (toastDuration_of props)])%list,
     Some timer)
  else (callbacks, toastTimerRef).

Definition handleClick (props : VanaAppSocialShareWidgetProps)
    (toastTimerRef : option nat) (timer : nat) (platform : SocialPlatform)
    : list Effect * option nat :=
  let text := generateShareText props in
  copyAndShowInstructions props toastTimerRef timer text (displayName platform).

Definition writes (e : Effect) : option string :=
  match e with
  | WriteText text => Some text
  | _ => None
  end.

Definition clipboardWrites (effects : list Effect) : list string :=
  omap writes effects.

(** The strings the caller supplied, end to end. *)
Definition suppliedText (props : VanaAppSocialShareWidgetProps) : string :=
  shareContent props +:+ default "" (suffix props).

End Suffix.

(** ** Sample inputs, taken from the test suites of the two widgets *)

Module Samples.
Import UploadWidget.

Definition mockProps : VanaAppUploadWidgetProps :=
  {| appId := "test-app-123"; onClose := false; iframeOrigin := None;
     schemaId := Some (Js.Int 123 I); prompt := Some "Test prompt"; theme := None |}.

Definition isDigit (c : ascii) : bool :=
  let n := nat_of_ascii c in ((48 <=? n) && (n <=? 57))%nat.

Fixpoint digitsThenPx (text : string) : bool :=
  match text with
  | EmptyString => false
  | String c rest => isDigit c && ((rest =? "px") || digitsThenPx rest)
  end.

(** The CSS engine of the sample host, cut down to the texts that the
    samples assign: it takes a decimal integer without sign and without
    leading zero followed by "px", and holds it as written; it discards
    every other text, a negative length among them. *)
Definition sampleCssHeight (text : string) : option string :=
  if digitsThenPx text && ((text =? "0px") || negb (String.prefix "0" text))
  then Some text else None.

Definition host : Host :=
  {| location_origin := "http://localhost:3000"; NODE_ENV := "test";
     cssHeight := sampleCssHeight |}.

(** The iframe of a mounted widget, and the iframe of a widget rendered
    into a container that is not attached to a document. *)
Definition iframe : HTMLIFrameElement :=
  {| contentWindow := true; style_height := "" |}.
Definition detachedIframe : HTMLIFrameElement :=
  {| contentWindow := false; style_height := "" |}.

Definition fromVana (d : Js.value) : MessageEvent :=
  {| origin := "https://app.vana.com"; data := d |}.

Definition readyEvent : MessageEvent := fromVana (message "ready" ∅).
Definition maliciousEvent : MessageEvent :=
  {| origin := "https://malicious.com";
     data := message "auth" {[ "walletAddress" := Js.Str "malicious" ]} |}.
Definition completeEvent : MessageEvent :=
  fromVana (message "complete" {[ "result" := Js.Str "success-data" ]}).
Definition errorEvent : MessageEvent :=
  fromVana (message "error" {[ "message" := Js.Str "Something went wrong" ]}).
Definition emptyErrorEvent : MessageEvent :=
  fromVana (message "error" {[ "message" := Js.Str "" ]}).
Definition emptyErrorFieldEvent : MessageEvent :=
  fromVana (message "error" {[ "error" := Js.Str "" ]}).
Definition emptyMessageWithErrorEvent : MessageEvent :=
  fromVana (message "error" (<["message" := Js.Str ""]> {[ "error" := Js.Str "Y" ]})).
Definition resizeEvent (height : Js.number) : MessageEvent :=
  fromVana (message "resize" {[ "height" := Js.Number height ]}).
Definition decoratedProps : Decorated.VanaAppSocialShareWidgetProps :=
  {| Decorated.appName := "Test App"; Decorated.shareContent := "Test content";
     Decorated.shareEmoji := None; Decorated.funnyNote := None;
     Decorated.callToAction := None; Decorated.hashtag := None;
     Decorated.onCopySuccess := false; Decorated.onShare := false |}.

Definition campaignProps : Decorated.VanaAppSocialShareWidgetProps :=
  {| Decorated.appName := "Test App"; Decorated.shareContent := "Test content";
     Decorated.shareEmoji := Some ":)"; Decorated.funnyNote := None;
     Decorated.callToAction := Some "Join at app.vana.com/join";
     Decorated.hashtag := Some "#OWNYOURDATA";
     Decorated.onCopySuccess := false; Decorated.onShare := false |}.

Definition suffixProps : Suffix.VanaAppSocialShareWidgetProps :=
  {| Suffix.shareContent := "Test content"; Suffix.suffix := None;
     Suffix.hideToast := None; Suffix.toastDuration := None;
     Suffix.onCopySuccess := false; Suffix.onShare := false |}.

End Samples.

(** ** What is observed of the effects of the router *)

Module Observe.
Import UploadWidget.

(** The message types that the [switch] of [handleMessage] names. *)
Definition messageTypes : list string :=
  ["ready"; "relay"; "auth"; "complete"; "error"; "resize"; "close"].

(** The argument with which a callback of the host page is invoked. *)
Definition callbackArgument (e : Effect) : option Js.value :=
  match e with
  | OnResult v | OnError v | OnAuth v => Some v
  | _ => None
  end.

Definition isCallback (e : Effect) : bool :=
  match e with
  | OnResult _ | OnError _ | OnAuth _ | OnClose => true
  | _ => false
  end.

Definition isConsoleWarn (e : Effect) : bool :=
  match e with
  | ConsoleWarn _ _ => true
  | _ => false
  end.

(** The target origin of a [postMessage]. *)
Definition postTarget (e : Effect) : option string :=
  match e with
  | PostMessage _ targetOrigin => Some targetOrigin
  | _ => None
  end.

End Observe.

(** ** The toast timer of the share widget

    The timers of the page that belong to the widget are the set [pending];
    [setInterval] and [setTimeout] add their handle to it, [clearInterval]
    and [clearTimeout] remove theirs, and a timer that has run its course
    (the countdown that reached zero and cleared itself, the timeout that
    fired) leaves it. *)

Module DecoratedTimers.
Import SharePlatforms Decorated.

Record State := {
  toastTimerRef : option nat;
  pending : gset nat
}.

Definition initial : State := {| toastTimerRef := None; pending := ∅ |}.

Definition perform (pending : gset nat) (e : Effect) : gset nat :=
  match e with
  | SetInterval timer _ _ _ => {[timer]} ∪ pending
  | ClearInterval timer => pending ∖ {[timer]}
  | _ => pending
  end.

(** The cleanup that the effect hook of the widget returns:
    [if (toastTimerRef.current) clearInterval(toastTimerRef.current)]. *)
Definition cleanup (toastTimerRef : option nat) : list Effect :=
  match toastTimerRef with
  | Some timer => [ClearInterval timer]
  | None => []
  end.

Inductive Event :=
  | Click (timer : nat) (platform : SocialPlatform)
  | Elapse (timer : nat).

Definition step (props : VanaAppSocialShareWidgetProps) (origin : string)
    (st : State) (ev : Event) : State :=
  match ev with
  | Click timer platform =>
      let '(effects, ref) := handleClick props origin (toastTimerRef st) timer platform in
      {| toastTimerRef := ref; pending := foldl perform (pending st) effects |}
  | Elapse timer =>
      {| toastTimerRef := toastTimerRef st; pending := pending st ∖ {[timer]} |}
  end.

Definition run (props : VanaAppSocialShareWidgetProps) (origin : string)
    (st : State) (events : list Event) : State :=
  foldl (step props origin) st events.

Definition unmount (st : State) : State :=
  {| toastTimerRef := toastTimerRef st;
     pending := foldl perform (pending st) (cleanup (toastTimerRef st)) |}.

End DecoratedTimers.

Module SuffixTimers.
Import SharePlatforms Suffix.

Record State := {
  toastTimerRef : option nat;
  pending : gset nat
}.

Definition initial : State := {| toastTimerRef := None; pending := ∅ |}.

Definition perform (pending : gset nat) (e : Effect) : gset nat :=
  match e with
  | SetTimeout timer _ => {[timer]} ∪ pending
  | ClearTimeout timer => pending ∖ {[timer]}
  | _ => pending
  end.

(** [if (toastTimerRef.current) clearTimeout(toastTimerRef.current)] *)
Definition cleanup (toastTimerRef : option nat) : list Effect :=
  match toastTimerRef with
  | Some timer => [ClearTimeout timer]
  | None => []
  end.

Inductive Event :=
  | Click (timer : nat) (platform : SocialPlatform)
  | Elapse (timer : nat).

Definition step (props : VanaAppSocialShareWidgetProps) (st : State) (ev : Event) : State :=
  match ev with
  | Click timer platform =>
      let '(effects, ref) := handleClick props (toastTimerRef st) timer platform in
      {| toastTimerRef := ref; pending := foldl perform (pending st) effects |}
  | Elapse timer =>
      {| toastTimerRef := toastTimerRef st; pending := pending st ∖ {[timer]} |}
  end.

Definition run (props : VanaAppSocialShareWidgetProps) (st : State)
    (events : list Event) : State :=
  foldl (step props) st events.

Definition unmount (st : State) : State :=
  {| toastTimerRef := toastTimerRef st;
     pending := foldl perform (pending st) (cleanup (toastTimerRef st)) |}.

End SuffixTimers.

(** ** What is observed of the effects of a click *)

Module ObserveShare.
Import JsString.

(** Whether every character of a string satisfies a test. *)
Fixpoint all_chars (p : ascii -> bool) (s : string) : bool :=
  match s with
  | EmptyString => true
  | String c s' => p c && all_chars p s'
  end.

Definition decoratedShares (e : Decorated.Effect) : option string :=
  match e with
  | Decorated.OnShare platform => Some platform
  | _ => None
  end.

Definition decoratedCopies (e : Decorated.Effect) : option (string * string * Z) :=
  match e with
  | Decorated.OnCopySuccess platform shareText openDelayMs =>
      Some (platform, shareText, openDelayMs)
  | _ => None
  end.

Definition suffixShares (e : Suffix.Effect) : option string :=
  match e with
  | Suffix.OnShare platform => Some platform
  | _ => None
  end.

Definition suffixCopies (e : Suffix.Effect) : option (string * string) :=
  match e with
  | Suffix.OnCopySuccess platform shareText => Some (platform, shareText)
  | _ => None
  end.

Definition suffixToasts (e : Suffix.Effect) : option Suffix.Toast :=
  match e with
  | Suffix.SetInternalToast message => Some message
  | _ => None
  end.

Definition suffixArms (e : Suffix.Effect) : option (nat * Z) :=
  match e with
  | Suffix.SetTimeout timer delay => Some (timer, delay)
  | _ => None
  end.

Definition suffixClears (e : Suffix.Effect) : option nat :=
  match e with
  | Suffix.ClearTimeout timer => Some timer
  | _ => None
  end.

Definition suffixTouchesToast (e : Suffix.Effect) : bool :=
  match e with
  | Suffix.SetInternalToast _ | Suffix.SetTimeout _ _ | Suffix.ClearTimeout _ => true
  | _ => false
  end.

End ObserveShare.

(** * Properties of the embed message router *)

Module UploadWidgetProofs.
Import UploadWidget.

Lemma typed_is_object (d : Js.value) (t : string) :
  Js.get d "type" = Js.Str t -> exists m, d = Js.Object m.
Proof. destruct d; simpl; try discriminate. eauto. Qed.

(** The properties that a rest pattern leaves are those of the message,
    [type] apart. *)
Lemma get_rest_object (m : gmap string Js.value) (k : string) :
  k ≠ "type" ->
  restGet (restOf (Js.Object m)) k = Js.get (Js.Object m) k.
Proof. intros Hk. simpl. by rewrite lookup_delete_ne. Qed.

(** Entering the [switch]: a message from the configured origin whose
    [type] is the string [t]. *)
Ltac enter_switch event Horigin Htype :=
  let m := fresh "m" in
  destruct event as [o d]; simpl in Horigin, Htype; subst o;
  destruct (typed_is_object _ _ Htype) as [m ->];
  unfold handleMessage; cbn [origin data];
  rewrite String.eqb_refl; cbn [negb];
  rewrite Htype; cbn [Js.strict_eq_str String.eqb Ascii.eqb Bool.eqb andb];
  rewrite ?get_rest_object by discriminate.

(** C1: a message whose origin is not the configured iframe origin is
    dropped: the handler performs no effect at all (no callback, no
    [postMessage], no assignment to the iframe's height), whatever its
    type and payload, and the iframe element stays as it was. *)
Theorem foreign_origin_ignored props host iframeRef event :
  origin event ≠ iframeOrigin_of props ->
  handleMessage props host iframeRef event = Normal []
  /\ iframe_after props host iframeRef event = iframeRef.
Proof.
  intros Hne. apply String.eqb_neq in Hne.
  assert (H : handleMessage props host iframeRef event = Normal []).
  { unfold handleMessage. by rewrite Hne. }
  split; [exact H|]. unfold iframe_after. by rewrite H.
Qed.

Lemma foreign_origin_ignored_witness :
  origin Samples.maliciousEvent ≠ iframeOrigin_of Samples.mockProps
  /\ handleMessage Samples.mockProps Samples.host (Some Samples.iframe)
       Samples.maliciousEvent = Normal []
  /\ iframe_after Samples.mockProps Samples.host (Some Samples.iframe)
       Samples.maliciousEvent = Some Samples.iframe.
Proof.
  split; [discriminate|].
  apply (foreign_origin_ignored Samples.mockProps Samples.host
           (Some Samples.iframe) Samples.maliciousEvent).
  discriminate.
Defined.

(** C2, as the claim states it, fails when the iframe has no content
    window: the [ready] message is answered by no [postMessage]. *)
Lemma ready_without_window_posts_nothing :
  handleMessage Samples.mockProps Samples.host (Some Samples.detachedIframe)
    Samples.readyEvent = Normal []
  /\ handleMessage Samples.mockProps Samples.host (Some Samples.detachedIframe)
       Samples.readyEvent
     ≠ Normal [PostMessage (configMessage Samples.mockProps Samples.host)
                 (iframeOrigin_of Samples.mockProps)].
Proof. split; [reflexivity | discriminate]. Qed.

(** C2, amended: a [ready] message from the configured origin is answered,
    when the iframe has a content window, by exactly one [postMessage] to
    it, targeted at the iframe origin, of the object [{type: "config",
    appId, schemaId, aiPrompt, embeddingOrigin, theme}] built from the
    props and the origin of the host window, and by nothing else; with no
    content window nothing is posted. *)
Theorem ready_posts_config props host iframeRef event :
  origin event = iframeOrigin_of props ->
  Js.get (data event) "type" = Js.Str "ready" ->
  handleMessage props host iframeRef event
  = (if hasContentWindow iframeRef
     then Normal [PostMessage (configMessage props host) (iframeOrigin_of props)]
     else Normal [])
  /\ configMessage props host
     = Js.Object (list_to_map
         [("type", Js.Str "config");
          ("appId", Js.Str (appId props));
          ("schemaId", Js.of_option Js.Number (schemaId props));
          ("aiPrompt", Js.of_option Js.Str (prompt props));
          ("embeddingOrigin", Js.Str (location_origin host));
          ("theme", Js.of_option themeValue (theme props))]).
Proof.
  intros Horigin Htype. split; [|reflexivity].
  enter_switch event Horigin Htype.
  reflexivity.
Qed.

Lemma ready_posts_config_witness :
  origin Samples.readyEvent = iframeOrigin_of Samples.mockProps
  /\ Js.get (data Samples.readyEvent) "type" = Js.Str "ready"
  /\ handleMessage Samples.mockProps Samples.host (Some Samples.iframe) Samples.readyEvent
     = Normal [PostMessage (configMessage Samples.mockProps Samples.host)
                 "https://app.vana.com"].
Proof.
  split; [reflexivity|]. split; [reflexivity|].
  apply (ready_posts_config Samples.mockProps Samples.host (Some Samples.iframe)
           Samples.readyEvent); reflexivity.
Defined.

(** C3, as the claim states it, fails for a [message] field, or an [error]
    field, that is present and empty: the callback receives the fallback,
    not the value of the field. *)
Lemma empty_message_not_passed_on :
  (Js.get (data Samples.emptyErrorEvent) "message" = Js.Str ""
   /\ handleMessage Samples.mockProps Samples.host (Some Samples.iframe)
        Samples.emptyErrorEvent = Normal [OnError (Js.Str "An error occurred")]
   /\ handleMessage Samples.mockProps Samples.host (Some Samples.iframe)
        Samples.emptyErrorEvent ≠ Normal [OnError (Js.Str "")])
  /\ (Js.get (data Samples.emptyErrorFieldEvent) "error" = Js.Str ""
      /\ handleMessage Samples.mockProps Samples.host (Some Samples.iframe)
           Samples.emptyErrorFieldEvent = Normal [OnError (Js.Str "An error occurred")]
      /\ handleMessage Samples.mockProps Samples.host (Some Samples.iframe)
           Samples.emptyErrorFieldEvent ≠ Normal [OnError (Js.Str "")]).
Proof. repeat split; first [reflexivity | discriminate]. Qed.

(** C3, amended: an [error] message from the configured origin invokes the
    error callback exactly once, with the value of [message] when that is
    truthy, otherwise with the value of [error] when that is truthy,
    otherwise with "An error occurred"; [{type: "error", message: "X"}]
    yields "X", [{type: "error", error: "Y"}] yields "Y" and
    [{type: "error"}] yields the fallback. *)
Theorem error_callback props host iframeRef event :
  origin event = iframeOrigin_of props ->
  Js.get (data event) "type" = Js.Str "error" ->
  let message_ := Js.get (data event) "message" in
  let error_ := Js.get (data event) "error" in
  let fromOrigin d := {| origin := iframeOrigin_of props; data := d |} in
  handleMessage props host iframeRef event
  = Normal [OnError (if Js.truthy message_ then message_
                     else if Js.truthy error_ then error_
                     else Js.Str "An error occurred")]
  /\ handleMessage props host iframeRef
       (fromOrigin (message "error" {[ "message" := Js.Str "X" ]}))
     = Normal [OnError (Js.Str "X")]
  /\ handleMessage props host iframeRef
       (fromOrigin (message "error" {[ "error" := Js.Str "Y" ]}))
     = Normal [OnError (Js.Str "Y")]
  /\ handleMessage props host iframeRef (fromOrigin (message "error" ∅))
     = Normal [OnError (Js.Str "An error occurred")].
Proof.
  intros Horigin Htype message_ error_ fromOrigin.
  split.
  - subst message_ error_. enter_switch event Horigin Htype.
    cbn [data]. unfold Js.or.
    destruct (Js.truthy (Js.get (Js.Object m) "message")) eqn:Em;
      rewrite ?Em; [reflexivity|].
    destruct (Js.truthy (Js.get (Js.Object m) "error")) eqn:Ee;
      rewrite ?Ee; reflexivity.
  - subst fromOrigin. unfold handleMessage. cbn [origin data].
    rewrite String.eqb_refl. repeat split; reflexivity.
Qed.

Lemma error_callback_witness :
  origin Samples.errorEvent = iframeOrigin_of Samples.mockProps
  /\ Js.get (data Samples.errorEvent) "type" = Js.Str "error"
  /\ handleMessage Samples.mockProps Samples.host (Some Samples.iframe) Samples.errorEvent
     = Normal [OnError (Js.Str "Something went wrong")].
Proof.
  split; [reflexivity|]. split; [reflexivity|].
  apply (error_callback Samples.mockProps Samples.host (Some Samples.iframe)
           Samples.errorEvent); reflexivity.
Defined.

(** C5, as the claim states it, fails for the height 0 and for the height
    NaN, which are falsy, for any height while [iframeRef.current] is
    [null], and for a negative height, which the CSS engine discards: the
    message carries a height and the height of the iframe stays as it
    was. *)
Lemma resize_to_zero_ignored :
  (Js.get (data (Samples.resizeEvent (Js.Int 0 I))) "height" = Js.Number (Js.Int 0 I)
   /\ iframe_after Samples.mockProps Samples.host (Some Samples.iframe)
        (Samples.resizeEvent (Js.Int 0 I)) = Some Samples.iframe
   /\ style_height Samples.iframe ≠ "0px")
  /\ (Js.get (data (Samples.resizeEvent (Js.Int 750 I))) "height"
      = Js.Number (Js.Int 750 I)
      /\ handleMessage Samples.mockProps Samples.host None
           (Samples.resizeEvent (Js.Int 750 I)) = Normal [])
  /\ (Js.get (data (Samples.resizeEvent Js.NaN)) "height" = Js.Number Js.NaN
      /\ handleMessage Samples.mockProps Samples.host (Some Samples.iframe)
           (Samples.resizeEvent Js.NaN) = Normal [])
  /\ (Js.get (data (Samples.resizeEvent (Js.Int (-5) I))) "height"
      = Js.Number (Js.Int (-5) I)
      /\ handleMessage Samples.mockProps Samples.host (Some Samples.iframe)
           (Samples.resizeEvent (Js.Int (-5) I)) = Normal [SetStyleHeight "-5px"]
      /\ iframe_after Samples.mockProps Samples.host (Some Samples.iframe)
           (Samples.resizeEvent (Js.Int (-5) I)) = Some Samples.iframe
      /\ style_height Samples.iframe ≠ "-5px").
Proof. repeat split; first [reflexivity | discriminate]. Qed.

(** C5, amended: a [resize] message from the configured origin that
    carries a truthy number as height (any number but 0 and NaN), received
    while the iframe element is mounted, assigns the text of that number
    suffixed with "px" to the iframe's [style.height], and does nothing
    else (750 gives "750px").  The height of the element is then what the
    CSS engine makes of that text: the value it takes it for, or the
    height as it was when the engine discards the text.  A [resize]
    message with no height leaves the iframe as it was and invokes no
    callback. *)
Theorem resize_sets_height props host iframeRef event :
  origin event = iframeOrigin_of props ->
  Js.get (data event) "type" = Js.Str "resize" ->
  (forall n iframe,
      Js.get (data event) "height" = Js.Number n -> Js.numberTruthy n = true ->
      iframeRef = Some iframe ->
      handleMessage props host iframeRef event
      = Normal [SetStyleHeight (Js.numberToString n +:+ "px")]
      /\ iframe_after props host iframeRef event
         = Some {| contentWindow := contentWindow iframe;
                   style_height :=
                     default (style_height iframe)
                       (cssHeight host (Js.numberToString n +:+ "px")) |})
  /\ (Js.get (data event) "height" = Js.Undefined ->
      handleMessage props host iframeRef event = Normal []
      /\ iframe_after props host iframeRef event = iframeRef)
  /\ Js.numberToString (Js.Int 750 I) +:+ "px" = "750px".
Proof.
  intros Horigin Htype. split; [|split; [|reflexivity]].
  - intros n iframe Hheight Hn ->.
    assert (H : handleMessage props host (Some iframe) event
                = Normal [SetStyleHeight (Js.numberToString n +:+ "px")]).
    { enter_switch event Horigin Htype. cbn [data] in Hheight.
      rewrite Hheight. cbn [Js.truthy Js.to_string]. by rewrite Hn. }
    split; [exact H|]. unfold iframe_after. rewrite H. simpl.
    destruct iframe as [w h]. by destruct (cssHeight host _).
  - intros Hheight.
    assert (H : handleMessage props host iframeRef event = Normal []).
    { enter_switch event Horigin Htype. cbn [data] in Hheight.
      rewrite Hheight. reflexivity. }
    split; [exact H|]. unfold iframe_after. rewrite H. reflexivity.
Qed.

Lemma resize_sets_height_witness :
  origin (Samples.resizeEvent (Js.Int 750 I)) = iframeOrigin_of Samples.mockProps
  /\ Js.get (data (Samples.resizeEvent (Js.Int 750 I))) "type" = Js.Str "resize"
  /\ Js.get (data (Samples.resizeEvent (Js.Int 750 I))) "height"
     = Js.Number (Js.Int 750 I)
  /\ Js.numberTruthy (Js.Int 750 I) = true
  /\ iframe_after Samples.mockProps Samples.host (Some Samples.iframe)
       (Samples.resizeEvent (Js.Int 750 I))
     = Some {| contentWindow := true; style_height := "750px" |}.
Proof.
  split; [reflexivity|]. split; [reflexivity|]. split; [reflexivity|].
  split; [reflexivity|].
  apply (proj1 (resize_sets_height Samples.mockProps Samples.host (Some Samples.iframe)
                  (Samples.resizeEvent (Js.Int 750 I)) eq_refl eq_refl)
               (Js.Int 750 I) Samples.iframe eq_refl eq_refl eq_refl).
Defined.

(** From 10^21 on a number prints in exponent notation, and the text
    assigned is that notation suffixed with "px"; a fraction is assigned
    with its fraction. *)
Example resize_beyond_plain_digits :
  handleMessage Samples.mockProps Samples.host (Some Samples.iframe)
    (Samples.resizeEvent (Js.Other "1e+21")) = Normal [SetStyleHeight "1e+21px"]
  /\ handleMessage Samples.mockProps Samples.host (Some Samples.iframe)
       (Samples.resizeEvent (Js.Other "750.5")) = Normal [SetStyleHeight "750.5px"].
Proof. split; reflexivity. Qed.

Lemma same_frame_refl r : same_frame r r.
Proof. by split. Qed.

Lemma same_frame_trans r1 r2 r3 :
  same_frame r1 r2 -> same_frame r2 r3 -> same_frame r1 r3.
Proof. intros [? ?] [? ?]. split; congruence. Qed.

Lemma perform_same_frame host r e : same_frame r (perform host r e).
Proof. destruct e, r; try by split. simpl. by destruct (cssHeight host height). Qed.

Lemma foldl_perform_same_frame host effects r :
  same_frame r (foldl (perform host) r effects).
Proof.
  revert r. induction effects as [|e effects IH]; intros r; simpl.
  - apply same_frame_refl.
  - eapply same_frame_trans; [apply perform_same_frame | apply IH].
Qed.

Lemma handleMessage_same_frame props host r r' event :
  same_frame r r' ->
  handleMessage props host r event = handleMessage props host r' event.
Proof. intros [Hw Hs]. unfold handleMessage. by rewrite Hw, Hs. Qed.

Lemma dispatch_same_frame props host events r :
  same_frame r (dispatch props host r events).2.
Proof.
  revert r. induction events as [|event events IH]; intros r; simpl.
  - apply same_frame_refl.
  - destruct (dispatch props host (iframe_after props host r event) events)
      as [cs final] eqn:E. simpl.
    eapply same_frame_trans; [apply foldl_perform_same_frame|].
    specialize (IH (iframe_after props host r event)). rewrite E in IH. exact IH.
Qed.

Lemma dispatch_pointwise props host events r :
  (dispatch props host r events).1 = map (handleMessage props host r) events.
Proof.
  revert r. induction events as [|event events IH]; intros r; simpl; [reflexivity|].
  specialize (IH (iframe_after props host r event)).
  destruct (dispatch props host (iframe_after props host r event) events)
    as [cs final]. simpl in *. f_equal. rewrite IH.
  apply map_ext. intros e. symmetry. apply handleMessage_same_frame.
  apply foldl_perform_same_frame.
Qed.

(** C6: the handler keeps no state between messages.  Over any sequence
    of messages, each message is handled as it would be handled alone
    (the completions of the sequence are those of its messages one by
    one), so after any history, in particular one in which [complete]
    already invoked the result callback, a [complete] message with a
    result invokes the result callback again and an [error] message
    invokes the error callback again. *)
Theorem handler_keeps_no_state props host iframeRef history event :
  let after := (dispatch props host iframeRef history).2 in
  (dispatch props host iframeRef history).1
  = map (handleMessage props host iframeRef) history
  /\ handleMessage props host after event = handleMessage props host iframeRef event
  /\ (origin event = iframeOrigin_of props ->
      Js.get (data event) "type" = Js.Str "complete" ->
      Js.truthy (Js.get (data event) "result") = true ->
      handleMessage props host after event
      = Normal [OnResult (Js.get (data event) "result")])
  /\ (origin event = iframeOrigin_of props ->
      Js.get (data event) "type" = Js.Str "error" ->
      exists v, handleMessage props host after event = Normal [OnError v]).
Proof.
  intros after.
  assert (Hsame : handleMessage props host after event
                  = handleMessage props host iframeRef event).
  { symmetry. apply handleMessage_same_frame, dispatch_same_frame. }
  split; [apply dispatch_pointwise|]. split; [exact Hsame|].
  rewrite Hsame. clear Hsame after. split.
  - intros Horigin Htype Hresult.
    enter_switch event Horigin Htype. cbn [data] in Hresult.
    rewrite Hresult. reflexivity.
  - intros Horigin Htype.
    enter_switch event Horigin Htype. eexists. reflexivity.
Qed.

Lemma handler_keeps_no_state_witness :
  origin Samples.completeEvent = iframeOrigin_of Samples.mockProps
  /\ Js.get (data Samples.completeEvent) "type" = Js.Str "complete"
  /\ Js.truthy (Js.get (data Samples.completeEvent) "result") = true
  /\ handleMessage Samples.mockProps Samples.host
       (dispatch Samples.mockProps Samples.host (Some Samples.iframe)
          [Samples.completeEvent; Samples.resizeEvent (Js.Int 500 I); Samples.errorEvent]).2
       Samples.completeEvent
     = Normal [OnResult (Js.Str "success-data")].
Proof.
  split; [reflexivity|]. split; [reflexivity|]. split; [reflexivity|].
  apply (handler_keeps_no_state Samples.mockProps Samples.host (Some Samples.iframe)
           [Samples.completeEvent; Samples.resizeEvent (Js.Int 500 I); Samples.errorEvent]
           Samples.completeEvent); reflexivity.
Defined.

(** C9, as the claim states it, fails when the [error] field is truthy: the
    empty [message] is skipped and the callback receives the value of
    [error], not the fallback. *)
Lemma empty_message_yields_error_field :
  Js.get (data Samples.emptyMessageWithErrorEvent) "message" = Js.Str ""
  /\ handleMessage Samples.mockProps Samples.host (Some Samples.iframe)
       Samples.emptyMessageWithErrorEvent = Normal [OnError (Js.Str "Y")]
  /\ handleMessage Samples.mockProps Samples.host (Some Samples.iframe)
       Samples.emptyMessageWithErrorEvent
     ≠ Normal [OnError (Js.Str "An error occurred")].
Proof. split; [reflexivity|]. split; [reflexivity | discriminate]. Qed.

(** C9, amended: an [error] message from the configured origin whose
    [message] is the empty string is not passed on verbatim: the error
    callback receives the value of [error] when that is truthy and
    "An error occurred" otherwise, and so never the empty string; and when
    [message] is absent and [error] is the empty string the callback
    receives "An error occurred". *)
Theorem empty_error_message_falls_back props host iframeRef event :
  origin event = iframeOrigin_of props ->
  Js.get (data event) "type" = Js.Str "error" ->
  let error_ := Js.get (data event) "error" in
  let passed := if Js.truthy error_ then error_ else Js.Str "An error occurred" in
  (Js.get (data event) "message" = Js.Str "" ->
   handleMessage props host iframeRef event = Normal [OnError passed]
   /\ passed ≠ Js.Str "")
  /\ (Js.get (data event) "message" = Js.Undefined ->
      Js.get (data event) "error" = Js.Str "" ->
      handleMessage props host iframeRef event
      = Normal [OnError (Js.Str "An error occurred")]).
Proof.
  intros Horigin Htype error_ passed. subst passed error_.
  enter_switch event Horigin Htype. cbn [data]. unfold Js.or.
  split.
  - intros ->. cbn [Js.truthy String.eqb negb].
    destruct (Js.truthy (Js.get (Js.Object m) "error")) eqn:Ee; rewrite ?Ee.
    + split; [reflexivity|]. intros E. rewrite E in Ee. discriminate.
    + split; [reflexivity | discriminate].
  - intros -> ->. reflexivity.
Qed.

Lemma empty_error_message_falls_back_witness :
  origin Samples.emptyErrorEvent = iframeOrigin_of Samples.mockProps
  /\ Js.get (data Samples.emptyErrorEvent) "type" = Js.Str "error"
  /\ Js.get (data Samples.emptyErrorEvent) "message" = Js.Str ""
  /\ handleMessage Samples.mockProps Samples.host (Some Samples.iframe)
       Samples.emptyErrorEvent
     = Normal [OnError (Js.Str "An error occurred")].
Proof.
  split; [reflexivity|]. split; [reflexivity|]. split; [reflexivity|].
  apply (proj1 (empty_error_message_falls_back Samples.mockProps Samples.host
                  (Some Samples.iframe) Samples.emptyErrorEvent eq_refl eq_refl)).
  reflexivity.
Defined.

(** C10: for a message from the configured origin, a payload field that
    is present but falsy counts as missing.  A [complete] message whose
    [result] is falsy (the empty string), an [auth] message whose
    [walletAddress] is falsy (the empty string) and a [resize] message
    whose [height] is falsy (the number 0) cause no effect at all, and the
    iframe element stays as it was. *)
Theorem falsy_field_is_missing props host iframeRef event :
  origin event = iframeOrigin_of props ->
  (Js.get (data event) "type" = Js.Str "complete"
     /\ Js.truthy (Js.get (data event) "result") = false)
  \/ (Js.get (data event) "type" = Js.Str "auth"
        /\ Js.truthy (Js.get (data event) "walletAddress") = false)
  \/ (Js.get (data event) "type" = Js.Str "resize"
        /\ Js.truthy (Js.get (data event) "height") = false) ->
  (handleMessage props host iframeRef event = Normal []
   /\ iframe_after props host iframeRef event = iframeRef)
  /\ Js.truthy (Js.Str "") = false
  /\ Js.truthy (Js.Number (Js.Int 0 I)) = false.
Proof.
  intros Horigin Hcase. split; [|split; reflexivity].
  assert (H : handleMessage props host iframeRef event = Normal []).
  { destruct Hcase as [[Htype Hf]|[[Htype Hf]|[Htype Hf]]];
      enter_switch event Horigin Htype; cbn [data] in Hf;
      rewrite Hf; reflexivity. }
  split; [exact H|]. unfold iframe_after. rewrite H. reflexivity.
Qed.

Lemma falsy_field_is_missing_witness :
  origin (Samples.resizeEvent (Js.Int 0 I)) = iframeOrigin_of Samples.mockProps
  /\ Js.get (data (Samples.resizeEvent (Js.Int 0 I))) "type" = Js.Str "resize"
  /\ Js.truthy (Js.get (data (Samples.resizeEvent (Js.Int 0 I))) "height") = false
  /\ handleMessage Samples.mockProps Samples.host (Some Samples.iframe)
       (Samples.resizeEvent (Js.Int 0 I)) = Normal []
  /\ iframe_after Samples.mockProps Samples.host (Some Samples.iframe)
       (Samples.resizeEvent (Js.Int 0 I)) = Some Samples.iframe.
Proof.
  split; [reflexivity|]. split; [reflexivity|]. split; [reflexivity|].
  apply (proj1 (falsy_field_is_missing Samples.mockProps Samples.host
                  (Some Samples.iframe) (Samples.resizeEvent (Js.Int 0 I)) eq_refl
                  (or_intror (or_intror (conj eq_refl eq_refl))))).
Defined.

End UploadWidgetProofs.

(** * Properties of the string operations *)

Module JsStringProofs.
Import JsString.

(** [includes], one character at a time. *)
Lemma includes_empty word : includes "" word = (word =? "").
Proof. by destruct word. Qed.

Lemma includes_cons x s word :
  includes (String x s) word = String.prefix word (String x s) || includes s word.
Proof.
  unfold includes.
  change (index 0 word (String x s))
    with (if String.prefix word (String x s) then Some 0
          else match index 0 word s with Some n => Some (S n) | None => None end).
  destruct (String.prefix word (String x s)); [reflexivity|].
  by destruct (index 0 word s).
Qed.

Lemma prefix_before_foreign_char sep word : forall a b,
  has_char sep word = false ->
  String.prefix word (a +:+ String sep b) = String.prefix word a.
Proof.
  induction word as [|x word IH]; intros a b Hw; [by destruct a|].
  simpl in Hw. apply orb_false_iff in Hw as [Hx Hw].
  destruct a as [|y a].
  - change ("" +:+ String sep b) with (String sep b). simpl.
    destruct (ascii_dec x sep) as [->|]; [|reflexivity].
    by rewrite Ascii.eqb_refl in Hx.
  - change (String y a +:+ String sep b) with (String y (a +:+ String sep b)).
    simpl. destruct (ascii_dec x y); [by apply IH | reflexivity].
Qed.

(** A word cannot straddle a character that it does not have. *)
Lemma includes_across_foreign_char sep word a b :
  has_char sep word = false ->
  includes (a +:+ String sep b) word = includes a word || includes b word.
Proof.
  intros Hw. induction a as [|y a IH].
  - change ("" +:+ String sep b) with (String sep b).
    rewrite includes_cons, includes_empty.
    change (String sep b) with ("" +:+ String sep b) at 1.
    rewrite prefix_before_foreign_char by done. by destruct word.
  - change (String y a +:+ String sep b) with (String y (a +:+ String sep b)).
    rewrite !includes_cons, IH.
    change (String y (a +:+ String sep b)) with (String y a +:+ String sep b).
    rewrite prefix_before_foreign_char by done. by rewrite orb_assoc.
Qed.

Lemma substring_all s : substring 0 (String.length s) s = s.
Proof. induction s as [|x s IH]; simpl; [reflexivity | by rewrite IH]. Qed.

Lemma prefix_split p : forall s,
  String.prefix p s = true ->
  s = p +:+ substring (String.length p) (String.length s - String.length p) s.
Proof.
  induction p as [|x p IH]; intros s H.
  - change ("" +:+ ?t) with t. simpl. by rewrite Nat.sub_0_r, substring_all.
  - destruct s as [|y s]; [discriminate|]. simpl in H.
    destruct (ascii_dec x y) as [->|]; [|discriminate].
    change (String y p +:+ ?t) with (String y (p +:+ t)).
    simpl. f_equal. by apply IH.
Qed.

Lemma replace_empty searchValue replaceValue :
  searchValue ≠ "" -> replace "" searchValue replaceValue = "".
Proof. by destruct searchValue. Qed.

Lemma replace_cons x s searchValue replaceValue :
  replace (String x s) searchValue replaceValue
  = if String.prefix searchValue (String x s)
    then replaceValue
         +:+ substring (String.length searchValue)
               (String.length (String x s) - String.length searchValue) (String x s)
    else String x (replace s searchValue replaceValue).
Proof.
  unfold replace.
  change (index 0 searchValue (String x s))
    with (if String.prefix searchValue (String x s) then Some 0
          else match index 0 searchValue s with
               | Some n => Some (S n)
               | None => None
               end).
  destruct (String.prefix searchValue (String x s)); [reflexivity|].
  by destruct (index 0 searchValue s).
Qed.

Section RewrittenCallToAction.
Variable word : string.
Hypothesis no_h : has_char "h" word = false.
Hypothesis no_slash : has_char "/" word = false.
Hypothesis not_in_scheme : includes "https:/" word = false.

Lemma prefix_of_replaced s : forall w,
  has_char "h" w = false ->
  String.prefix w (replace s "app.vana.com" "https://app.vana.com") = true ->
  String.prefix w s = true.
Proof.
  induction s as [|x s IH]; intros w Hw H.
  - by rewrite replace_empty in H.
  - rewrite replace_cons in H.
    destruct w as [|y w]; [reflexivity|].
    simpl in Hw. apply orb_false_iff in Hw as [Hy Hw].
    destruct (String.prefix "app.vana.com" (String x s)).
    + simpl in H. destruct (ascii_dec y "h") as [->|]; [|discriminate].
      by rewrite Ascii.eqb_refl in Hy.
    + simpl in *. destruct (ascii_dec y x); [by apply IH | discriminate].
Qed.

(** Writing the scheme before the domain brings no occurrence of a word
    that has neither [h] nor [/]. *)
Lemma includes_replaced s :
  includes (replace s "app.vana.com" "https://app.vana.com") word = true ->
  includes s word = true.
Proof.
  induction s as [|x s IH]; intros H.
  - by rewrite replace_empty in H.
  - rewrite replace_cons in H.
    destruct (String.prefix "app.vana.com" (String x s)) eqn:Hp.
    + apply prefix_split in Hp.
      set (rest := substring _ _ _) in *.
      rewrite Hp.
      change ("https://app.vana.com" +:+ rest)
        with ("https:/" +:+ String "/" ("app.vana.com" +:+ rest)) in H.
      rewrite includes_across_foreign_char, not_in_scheme in H by done.
      exact H.
    + rewrite includes_cons in H. rewrite includes_cons.
      apply orb_true_iff in H as [H|H]; apply orb_true_iff.
      * left. apply (prefix_of_replaced (String x s)); [done|].
        by rewrite replace_cons, Hp.
      * right. by apply IH.
Qed.
End RewrittenCallToAction.

(** The two line feeds before the call-to-action stay in place. *)
Lemma replace_after_line_feeds s replaceValue :
  replace (LF +:+ LF +:+ s) "app.vana.com" replaceValue
  = LF +:+ LF +:+ replace s "app.vana.com" replaceValue.
Proof.
  unfold replace.
  change (LF +:+ LF +:+ s) with (String "010" (String "010" s)).
  assert (E : index 0 "app.vana.com" (String "010" (String "010" s))
              = (fun n => S (S n)) <$> index 0 "app.vana.com" s).
  { simpl. by destruct (index 0 "app.vana.com" s). }
  rewrite E. destruct (index 0 "app.vana.com" s) as [pos|]; reflexivity.
Qed.

End JsStringProofs.

(** * Properties of the share text composer *)

Module ShareProofs.
Import JsString SharePlatforms JsStringProofs.

Lemma append_empty_r s : s +:+ "" = s.
Proof.
  induction s as [|x s IH]; [reflexivity|].
  change (String x s +:+ "") with (String x (s +:+ "")). by rewrite IH.
Qed.

Lemma append_assoc a b c : (a +:+ b) +:+ c = a +:+ (b +:+ c).
Proof.
  induction a as [|x a IH]; [reflexivity|].
  change (String x (a +:+ b) +:+ c = String x (a +:+ (b +:+ c))).
  change (String x (a +:+ b) +:+ c) with (String x ((a +:+ b) +:+ c)).
  by rewrite IH.
Qed.

Lemma decorated_click_writes props origin toastTimerRef timer platform :
  Decorated.clipboardWrites
    (Decorated.handleClick props origin toastTimerRef timer platform).1
  = [Decorated.generateShareText props platform].
Proof.
  unfold Decorated.handleClick, Decorated.copyAndOpenWithCountdown,
    Decorated.clipboardWrites.
  cbn [fst]. destruct (Decorated.onShare props), (Decorated.onCopySuccess props),
    toastTimerRef; reflexivity.
Qed.

Lemma suffix_click_writes props toastTimerRef timer platform :
  Suffix.clipboardWrites (Suffix.handleClick props toastTimerRef timer platform).1
  = [Suffix.generateShareText props].
Proof.
  unfold Suffix.handleClick, Suffix.copyAndShowInstructions, Suffix.clipboardWrites.
  destruct (Suffix.hideToast_of props), (Suffix.onShare props),
    (Suffix.onCopySuccess props), toastTimerRef; reflexivity.
Qed.

(** C4: in the suffix version the composed share text is the content
    followed by the suffix, character for character, whatever the content
    and the suffix, and it is the text copied on a click of the button of
    any platform; with the empty suffix it is the content unchanged, and
    for "Test content" and the default suffix it is
    "Test content\n\nTry @ app.vana.com\n#datarevolution". *)
Theorem suffix_policy_concatenates props toastTimerRef timer platform :
  Suffix.generateShareText props
  = Suffix.shareContent props
    +:+ default (LF +:+ LF +:+ "Try @ app.vana.com" +:+ LF +:+ "#datarevolution")
                (Suffix.suffix props)
  /\ Suffix.clipboardWrites (Suffix.handleClick props toastTimerRef timer platform).1
     = [Suffix.generateShareText props]
  /\ (Suffix.suffix props = Some "" ->
      Suffix.generateShareText props = Suffix.shareContent props)
  /\ (Suffix.shareContent props = "Test content" -> Suffix.suffix props = None ->
      Suffix.generateShareText props
      = "Test content" +:+ LF +:+ LF +:+ "Try @ app.vana.com" +:+ LF
        +:+ "#datarevolution").
Proof.
  split; [reflexivity|]. split; [apply suffix_click_writes|].
  unfold Suffix.generateShareText, Suffix.suffix_of. split.
  - intros ->. apply append_empty_r.
  - intros -> ->. reflexivity.
Qed.

Lemma suffix_policy_concatenates_witness :
  Suffix.shareContent Samples.suffixProps = "Test content"
  /\ Suffix.suffix Samples.suffixProps = None
  /\ Suffix.generateShareText Samples.suffixProps
     = "Test content" +:+ LF +:+ LF +:+ "Try @ app.vana.com" +:+ LF
       +:+ "#datarevolution".
Proof.
  split; [reflexivity|]. split; [reflexivity|].
  apply (suffix_policy_concatenates Samples.suffixProps None 1 twitter); reflexivity.
Defined.

(** C7: in the decorated version the composed share text of every
    platform is the intro with the app name, the emoji followed by a space
    if an emoji is given and not empty, the content, two line feeds and
    the note if a note is given and not empty, two line feeds and the
    call-to-action, a line feed and the hashtag, in this order, with
    "Try @ app.vana.com" and "#DATAREVOLUTION" where the caller gives no
    call-to-action or hashtag; for instagram and facebook, and for these
    two only, the call-to-action has "app.vana.com" rewritten to
    "https://app.vana.com" (the default call-to-action becomes
    "Try @ https://app.vana.com"), for twitter and linkedin it is left as
    given. *)
Theorem decorated_policy_composes props platform :
  Decorated.generateShareText props platform
  = ("Tried Vana's " +:+ Decorated.appName props +:+ ", look what I got:" +:+ LF +:+ LF)
    +:+ match Decorated.shareEmoji props with
        | None | Some "" => ""
        | Some emoji => emoji +:+ " "
        end
    +:+ Decorated.shareContent props
    +:+ match Decorated.funnyNote props with
        | None | Some "" => ""
        | Some note => LF +:+ LF +:+ note
        end
    +:+ (LF +:+ LF
         +:+ match Decorated.callToAction props, platform with
             | Some given, (instagram | facebook) =>
                 replace given "app.vana.com" "https://app.vana.com"
             | Some given, (twitter | linkedin) => given
             | None, (instagram | facebook) => "Try @ https://app.vana.com"
             | None, (twitter | linkedin) => "Try @ app.vana.com"
             end)
    +:+ LF
    +:+ match Decorated.hashtag props with
        | Some tag => tag
        | None => "#DATAREVOLUTION"
        end.
Proof.
  unfold Decorated.generateShareText, Decorated.shareEmoji_of,
    Decorated.funnyNote_of, Decorated.callToAction_of, Decorated.hashtag_of.
  assert (He : (if negb (default "" (Decorated.shareEmoji props) =? "")
                then default "" (Decorated.shareEmoji props) +:+ " " else "")
               = match Decorated.shareEmoji props with
                 | None | Some "" => ""
                 | Some emoji => emoji +:+ " "
                 end)
    by (destruct (Decorated.shareEmoji props) as [[|x e]|]; reflexivity).
  assert (Hn : (if negb (default "" (Decorated.funnyNote props) =? "")
                then LF +:+ LF +:+ default "" (Decorated.funnyNote props) else "")
               = match Decorated.funnyNote props with
                 | None | Some "" => ""
                 | Some note => LF +:+ LF +:+ note
                 end)
    by (destruct (Decorated.funnyNote props) as [[|x n]|]; reflexivity).
  rewrite He, Hn. clear He Hn.
  f_equal. rewrite append_assoc. do 3 f_equal.
  assert (Hc : (if match platform with
                   | instagram | facebook => true
                   | _ => false
                   end
                then replace (LF +:+ LF +:+ default "Try @ app.vana.com"
                                              (Decorated.callToAction props))
                       "app.vana.com" "https://app.vana.com"
                else LF +:+ LF +:+ default "Try @ app.vana.com"
                                     (Decorated.callToAction props))
               = LF +:+ LF
                 +:+ match Decorated.callToAction props, platform with
                     | Some given, (instagram | facebook) =>
                         replace given "app.vana.com" "https://app.vana.com"
                     | Some given, (twitter | linkedin) => given
                     | None, (instagram | facebook) => "Try @ https://app.vana.com"
                     | None, (twitter | linkedin) => "Try @ app.vana.com"
                     end).
  { destruct (Decorated.callToAction props) as [given|], platform;
      first [reflexivity | apply replace_after_line_feeds]. }
  rewrite Hc. by destruct (Decorated.hashtag props).
Qed.

(** ** Words that only the caller could bring

    [word] stands for a text that shares no character with the separators
    of the composed text and occurs in none of the literals of the widget;
    "undefined" and "null" are two such words. *)
Section ForeignWord.
Variable word : string.
Hypothesis not_empty : includes "" word = false.
Hypothesis no_space : has_char " " word = false.
Hypothesis no_comma : has_char "," word = false.
Hypothesis no_line_feed : has_char "010" word = false.
Hypothesis no_h : has_char "h" word = false.
Hypothesis no_slash : has_char "/" word = false.
Hypothesis not_in_scheme : includes "https:/" word = false.
Hypothesis not_in_intro : includes "Tried Vana's" word = false.
Hypothesis not_in_look : includes " look what I got:" word = false.
Hypothesis not_in_callToAction : includes "Try @ app.vana.com" word = false.
Hypothesis not_in_hashtag : includes "#DATAREVOLUTION" word = false.
Hypothesis not_in_suffix :
  includes ("Try @ app.vana.com" +:+ LF +:+ "#datarevolution") word = false.

Lemma includes_separated sep a b :
  has_char sep word = false ->
  includes (a +:+ String sep "" +:+ b) word = includes a word || includes b word.
Proof. apply includes_across_foreign_char. Qed.

Lemma includes_after_separator sep b :
  has_char sep word = false ->
  includes (String sep "" +:+ b) word = includes b word.
Proof.
  intros H. change (String sep "" +:+ b) with ("" +:+ String sep b).
  by rewrite includes_across_foreign_char, not_empty.
Qed.

Lemma includes_after_intro name rest :
  includes ("Tried Vana's " +:+ name +:+ ", look what I got:" +:+ LF +:+ LF +:+ rest) word
  = includes name word || includes rest word.
Proof.
  change ("Tried Vana's " +:+ name +:+ ", look what I got:" +:+ LF +:+ LF +:+ rest)
    with ("Tried Vana's" +:+ String " "
            (name +:+ String "," (" look what I got:" +:+ String "010" (LF +:+ rest)))).
  rewrite !includes_across_foreign_char by done.
  unfold LF. rewrite includes_after_separator by done.
  by rewrite not_in_intro, not_in_look.
Qed.

Lemma includes_emoji_prefix props rest :
  includes (Decorated.shareEmoji_of props) word = false ->
  includes ((if negb (Decorated.shareEmoji_of props =? "")
             then Decorated.shareEmoji_of props +:+ " " else "") +:+ rest) word
  = includes rest word.
Proof.
  intros H. destruct (Decorated.shareEmoji_of props =? ""); simpl negb; cbv iota.
  - reflexivity.
  - rewrite append_assoc, includes_separated by done. by rewrite H.
Qed.

Lemma includes_note props content rest :
  includes (Decorated.funnyNote_of props) word = false ->
  includes (content
            +:+ (if negb (Decorated.funnyNote_of props =? "")
                 then LF +:+ LF +:+ Decorated.funnyNote_of props else "")
            +:+ LF +:+ LF +:+ rest) word
  = includes content word || includes rest word.
Proof.
  intros H. unfold LF.
  destruct (Decorated.funnyNote_of props =? ""); simpl negb; cbv iota.
  - change ("" +:+ ?t) with t.
    by rewrite includes_separated, includes_after_separator.
  - rewrite !append_assoc.
    rewrite includes_separated, includes_after_separator by done.
    rewrite includes_separated, includes_after_separator by done.
    by rewrite H.
Qed.

Lemma callToAction_shape props platform :
  (if match platform with
      | instagram | facebook => true
      | _ => false
      end
   then replace (LF +:+ LF +:+ Decorated.callToAction_of props)
          "app.vana.com" "https://app.vana.com"
   else LF +:+ LF +:+ Decorated.callToAction_of props)
  = LF +:+ LF
    +:+ match platform with
        | instagram | facebook =>
            replace (Decorated.callToAction_of props)
              "app.vana.com" "https://app.vana.com"
        | twitter | linkedin => Decorated.callToAction_of props
        end.
Proof. destruct platform; first [reflexivity | apply replace_after_line_feeds]. Qed.

Lemma includes_callToAction props platform :
  includes (Decorated.callToAction_of props) word = false ->
  includes (match platform with
            | instagram | facebook =>
                replace (Decorated.callToAction_of props)
                  "app.vana.com" "https://app.vana.com"
            | twitter | linkedin => Decorated.callToAction_of props
            end) word = false.
Proof.
  intros H.
  assert (Hr : includes (replace (Decorated.callToAction_of props)
                           "app.vana.com" "https://app.vana.com") word = false).
  { destruct (includes (replace _ _ _) word) eqn:E; [|reflexivity].
    apply includes_replaced in E; [congruence | done..]. }
  by destruct platform.
Qed.

(** In the decorated version, a foreign word that none of the strings in
    use has does not occur in the composed text. *)
Lemma decorated_text_lacks props platform :
  includes (Decorated.appName props) word = false ->
  includes (Decorated.shareContent props) word = false ->
  includes (Decorated.shareEmoji_of props) word = false ->
  includes (Decorated.funnyNote_of props) word = false ->
  includes (Decorated.callToAction_of props) word = false ->
  includes (Decorated.hashtag_of props) word = false ->
  includes (Decorated.generateShareText props platform) word = false.
Proof.
  intros Hname Hcontent Hemoji Hnote Hcta Htag.
  pose proof (includes_callToAction props platform Hcta) as Hcta'.
  unfold Decorated.generateShareText.
  rewrite callToAction_shape, !append_assoc.
  rewrite includes_after_intro, includes_emoji_prefix by done.
  rewrite includes_note by done. unfold LF.
  rewrite includes_separated by done.
  by rewrite Hname, Hcontent, Hcta', Htag.
Qed.

(** In the suffix version, a foreign word that the caller's strings, put
    end to end, do not spell does not occur in the composed text. *)
Lemma suffix_text_lacks props :
  includes (Suffix.suppliedText props) word = false ->
  includes (Suffix.generateShareText props) word = false.
Proof.
  unfold Suffix.generateShareText, Suffix.suffix_of, Suffix.suppliedText.
  destruct (Suffix.suffix props) as [suffix|]; [done|].
  rewrite append_empty_r. intros H.
  change (Suffix.shareContent props +:+ default Suffix.defaultSuffix None)
    with (Suffix.shareContent props +:+ String "010" ""
          +:+ String "010" "" +:+ "Try @ app.vana.com" +:+ LF +:+ "#datarevolution").
  rewrite includes_separated, includes_after_separator by done.
  by rewrite H, not_in_suffix.
Qed.
End ForeignWord.

Lemma decorated_text_lacks_supplied word props platform :
  word = "undefined" \/ word = "null" ->
  Forall (fun s => includes s word = false) (Decorated.supplied props) ->
  includes (Decorated.generateShareText props platform) word = false.
Proof.
  intros Hword Hsupplied.
  assert (Hparts :
    includes (Decorated.appName props) word = false
    /\ includes (Decorated.shareContent props) word = false
    /\ includes (Decorated.shareEmoji_of props) word = false
    /\ includes (Decorated.funnyNote_of props) word = false
    /\ includes (Decorated.callToAction_of props) word = false
    /\ includes (Decorated.hashtag_of props) word = false).
  { unfold Decorated.supplied in Hsupplied.
    apply Forall_cons in Hsupplied as [Hname Hsupplied].
    apply Forall_cons in Hsupplied as [Hcontent Hsupplied].
    apply Forall_app in Hsupplied as [Hemoji Hsupplied].
    apply Forall_app in Hsupplied as [Hnote Hsupplied].
    apply Forall_app in Hsupplied as [Hcta Htag].
    unfold Decorated.shareEmoji_of, Decorated.funnyNote_of,
      Decorated.callToAction_of, Decorated.hashtag_of.
    repeat split; try assumption.
    - destruct (Decorated.shareEmoji props); [by inversion_clear Hemoji|].
      by destruct Hword as [-> | ->].
    - destruct (Decorated.funnyNote props); [by inversion_clear Hnote|].
      by destruct Hword as [-> | ->].
    - destruct (Decorated.callToAction props); [by inversion_clear Hcta|].
      by destruct Hword as [-> | ->].
    - destruct (Decorated.hashtag props); [by inversion_clear Htag|].
      by destruct Hword as [-> | ->]. }
  destruct Hparts as (? & ? & ? & ? & ? & ?).
  destruct Hword as [-> | ->]; by apply decorated_text_lacks.
Qed.

Lemma suffix_text_lacks_supplied word props :
  word = "undefined" \/ word = "null" ->
  includes (Suffix.suppliedText props) word = false ->
  includes (Suffix.generateShareText props) word = false.
Proof. intros [-> | ->]; by apply suffix_text_lacks. Qed.

(** C8: one click of a share button calls the clipboard write exactly
    once, with the composed share text, in both versions of the widget;
    and whichever of the optional props (emoji, note, call-to-action,
    hashtag, suffix) are omitted, the composed text has neither
    "undefined" nor "null" in it: such a word occurs in the text only if
    the strings that the caller did supply spell it. *)
Theorem share_click_copies_once dprops sprops origin toastTimerRef timer platform word :
  Decorated.clipboardWrites
    (Decorated.handleClick dprops origin toastTimerRef timer platform).1
  = [Decorated.generateShareText dprops platform]
  /\ Suffix.clipboardWrites (Suffix.handleClick sprops toastTimerRef timer platform).1
     = [Suffix.generateShareText sprops]
  /\ (word = "undefined" \/ word = "null" ->
      (Forall (fun s => includes s word = false) (Decorated.supplied dprops) ->
       includes (Decorated.generateShareText dprops platform) word = false)
      /\ (includes (Suffix.suppliedText sprops) word = false ->
          includes (Suffix.generateShareText sprops) word = false)).
Proof.
  split; [apply decorated_click_writes|]. split; [apply suffix_click_writes|].
  intros Hword. split.
  - by apply decorated_text_lacks_supplied.
  - by apply suffix_text_lacks_supplied.
Qed.

Lemma share_click_copies_once_witness :
  Forall (fun s => includes s "undefined" = false)
    (Decorated.supplied Samples.decoratedProps)
  /\ includes (Suffix.suppliedText Samples.suffixProps) "undefined" = false
  /\ includes (Decorated.generateShareText Samples.decoratedProps instagram)
       "undefined" = false
  /\ includes (Suffix.generateShareText Samples.suffixProps) "undefined" = false.
Proof.
  assert (Hd : Forall (fun s => includes s "undefined" = false)
                 (Decorated.supplied Samples.decoratedProps))
    by (repeat constructor).
  assert (Hs : includes (Suffix.suppliedText Samples.suffixProps) "undefined" = false)
    by reflexivity.
  split; [exact Hd|]. split; [exact Hs|].
  destruct (share_click_copies_once Samples.decoratedProps Samples.suffixProps
              "http://localhost:3000" None 1 instagram "undefined")
    as (_ & _ & H).
  destruct (H (or_introl eq_refl)) as [H1 H2].
  split; [exact (H1 Hd) | exact (H2 Hs)].
Defined.

End ShareProofs.

(** * Further properties of the embed message router *)

Module RouterProperties.
Import UploadWidget Observe UploadWidgetProofs.

Lemma strict_eq_str_true v s : Js.strict_eq_str v s = true -> v = Js.Str s.
Proof.
  destruct v; simpl; try discriminate.
  intros H. apply String.eqb_eq in H. by subst.
Qed.

Lemma strict_eq_str_false v s : v ≠ Js.Str s -> Js.strict_eq_str v s = false.
Proof.
  intros Hne. destruct (Js.strict_eq_str v s) eqn:E; [|reflexivity].
  by apply strict_eq_str_true in E.
Qed.

Lemma or_truthy a b : Js.truthy b = true -> Js.truthy (Js.or a b) = true.
Proof. intros Hb. unfold Js.or. by destruct (Js.truthy a) eqn:E. Qed.

(** X1: the payload of a [relay] message from the configured origin is posted
    to the iframe as it is, targeted at the iframe origin, when the iframe
    has a content window and the payload is truthy; otherwise the message
    has no effect.  No callback of the host page is involved, whatever the
    payload holds. *)
Theorem relay_forwards_payload props host iframeRef event :
  origin event = iframeOrigin_of props ->
  Js.get (data event) "type" = Js.Str "relay" ->
  let payload := Js.get (data event) "data" in
  (hasContentWindow iframeRef = true -> Js.truthy payload = true ->
   handleMessage props host iframeRef event
   = Normal [PostMessage payload (iframeOrigin_of props)])
  /\ (hasContentWindow iframeRef = false \/ Js.truthy payload = false ->
      handleMessage props host iframeRef event = Normal []).
Proof.
  intros Horigin Htype payload. subst payload.
  enter_switch event Horigin Htype. cbn [data]. split.
  - intros -> ->. reflexivity.
  - intros [-> | ->]; [reflexivity|]. by rewrite andb_false_r.
Qed.

Lemma relay_forwards_payload_witness :
  let event := Samples.fromVana
                 (message "relay" {[ "data" := Js.Object {[ "someData" := Js.Str "test" ]} ]}) in
  origin event = iframeOrigin_of Samples.mockProps
  /\ Js.get (data event) "type" = Js.Str "relay"
  /\ handleMessage Samples.mockProps Samples.host (Some Samples.iframe) event
     = Normal [PostMessage (Js.Object {[ "someData" := Js.Str "test" ]})
                 "https://app.vana.com"].
Proof.
  intros event. split; [reflexivity|]. split; [reflexivity|].
  apply (proj1 (relay_forwards_payload Samples.mockProps Samples.host
                  (Some Samples.iframe) event eq_refl eq_refl)); reflexivity.
Defined.

(** X2: an [auth] message from the configured origin with a truthy
    [walletAddress] invokes the auth callback once, with that address, and
    has no other effect. *)
Theorem auth_invokes_callback props host iframeRef event :
  origin event = iframeOrigin_of props ->
  Js.get (data event) "type" = Js.Str "auth" ->
  Js.truthy (Js.get (data event) "walletAddress") = true ->
  handleMessage props host iframeRef event
  = Normal [OnAuth (Js.get (data event) "walletAddress")]
  /\ iframe_after props host iframeRef event = iframeRef.
Proof.
  intros Horigin Htype Hwallet.
  assert (H : handleMessage props host iframeRef event
              = Normal [OnAuth (Js.get (data event) "walletAddress")]).
  { enter_switch event Horigin Htype. cbn [data] in *. by rewrite Hwallet. }
  split; [exact H|]. unfold iframe_after. by rewrite H.
Qed.

Lemma auth_invokes_callback_witness :
  let event := Samples.fromVana (message "auth" {[ "walletAddress" := Js.Str "0x123456789" ]}) in
  origin event = iframeOrigin_of Samples.mockProps
  /\ Js.get (data event) "type" = Js.Str "auth"
  /\ Js.truthy (Js.get (data event) "walletAddress") = true
  /\ handleMessage Samples.mockProps Samples.host (Some Samples.iframe) event
     = Normal [OnAuth (Js.Str "0x123456789")].
Proof.
  intros event. split; [reflexivity|]. split; [reflexivity|]. split; [reflexivity|].
  apply (auth_invokes_callback Samples.mockProps Samples.host (Some Samples.iframe) event);
    reflexivity.
Defined.

(** X3: one message causes one effect at most. *)
Theorem at_most_one_effect props host iframeRef event :
  length (effects_of (handleMessage props host iframeRef event)) <= 1.
Proof. unfold handleMessage. repeat case_match; simpl; lia. Qed.

(** X4: whatever the handler posts, it posts to the configured iframe origin,
    to an iframe that has a content window, and in answer to a [ready] or
    a [relay] message from that origin. *)
Theorem posts_only_to_iframe_origin props host iframeRef event e target :
  e ∈ effects_of (handleMessage props host iframeRef event) ->
  postTarget e = Some target ->
  target = iframeOrigin_of props
  /\ hasContentWindow iframeRef = true
  /\ origin event = iframeOrigin_of props
  /\ (Js.get (data event) "type" = Js.Str "ready"
      \/ Js.get (data event) "type" = Js.Str "relay").
Proof.
  unfold handleMessage.
  destruct (origin event =? iframeOrigin_of props) eqn:Ho; simpl negb; cbv iota;
    [|by intros ?%elem_of_nil].
  apply String.eqb_eq in Ho.
  repeat case_match; simpl effects_of;
    try (by intros ?%elem_of_nil);
    intros ->%list_elem_of_singleton; simpl; try discriminate;
    intros [= <-];
    repeat match goal with
           | H : Js.strict_eq_str _ _ = true |- _ => apply strict_eq_str_true in H
           | H : _ && _ = true |- _ => apply andb_true_iff in H as [? ?]
           end; auto.
Qed.

Lemma posts_only_to_iframe_origin_witness :
  PostMessage (configMessage Samples.mockProps Samples.host) "https://app.vana.com"
    ∈ effects_of (handleMessage Samples.mockProps Samples.host (Some Samples.iframe)
                    Samples.readyEvent)
  /\ "https://app.vana.com" = iframeOrigin_of Samples.mockProps.
Proof.
  assert (H : PostMessage (configMessage Samples.mockProps Samples.host) "https://app.vana.com"
                ∈ effects_of (handleMessage Samples.mockProps Samples.host
                                (Some Samples.iframe) Samples.readyEvent))
    by (apply list_elem_of_singleton; reflexivity).
  split; [exact H|].
  apply (posts_only_to_iframe_origin Samples.mockProps Samples.host (Some Samples.iframe)
           Samples.readyEvent _ "https://app.vana.com" H eq_refl).
Defined.

(** X5: the result, error and auth callbacks are never handed a falsy value. *)
Theorem callbacks_receive_truthy props host iframeRef event e v :
  e ∈ effects_of (handleMessage props host iframeRef event) ->
  callbackArgument e = Some v ->
  Js.truthy v = true.
Proof.
  unfold handleMessage.
  repeat case_match; simpl effects_of;
    try (by intros ?%elem_of_nil);
    intros ->%list_elem_of_singleton; simpl; try discriminate;
    intros [= <-]; try assumption.
  by apply or_truthy.
Qed.

Lemma callbacks_receive_truthy_witness :
  OnError (Js.Str "An error occurred")
    ∈ effects_of (handleMessage Samples.mockProps Samples.host (Some Samples.iframe)
                    Samples.emptyErrorEvent)
  /\ Js.truthy (Js.Str "An error occurred") = true.
Proof.
  assert (H : OnError (Js.Str "An error occurred")
                ∈ effects_of (handleMessage Samples.mockProps Samples.host
                                (Some Samples.iframe) Samples.emptyErrorEvent))
    by (apply list_elem_of_singleton; reflexivity).
  split; [exact H|].
  apply (callbacks_receive_truthy Samples.mockProps Samples.host (Some Samples.iframe)
           Samples.emptyErrorEvent _ _ H eq_refl).
Defined.

(** X6: a message from the configured origin whose data is [null] or
    [undefined] makes the handler throw (the destructuring fails) before
    any effect: no callback is invoked, nothing is posted and the iframe is
    as it was.  The same data from another origin is dropped without a
    throw. *)
Theorem unreadable_data_throws props host iframeRef event :
  data event = Js.Undefined \/ data event = Js.Null ->
  (origin event = iframeOrigin_of props ->
   handleMessage props host iframeRef event = Throw
   /\ effects_of (handleMessage props host iframeRef event) = []
   /\ iframe_after props host iframeRef event = iframeRef)
  /\ (origin event ≠ iframeOrigin_of props ->
      handleMessage props host iframeRef event = Normal []).
Proof.
  intros Hdata. split.
  - intros Horigin.
    assert (H : handleMessage props host iframeRef event = Throw).
    { unfold handleMessage.
      rewrite Horigin, String.eqb_refl. by destruct Hdata as [-> | ->]. }
    unfold iframe_after. by rewrite H.
  - intros Hne%String.eqb_neq. unfold handleMessage. by rewrite Hne.
Qed.

Lemma unreadable_data_throws_witness :
  origin (Samples.fromVana Js.Null) = iframeOrigin_of Samples.mockProps
  /\ handleMessage Samples.mockProps Samples.host (Some Samples.iframe)
       (Samples.fromVana Js.Null) = Throw.
Proof.
  split; [reflexivity|].
  apply (proj1 (unreadable_data_throws Samples.mockProps Samples.host
                  (Some Samples.iframe) (Samples.fromVana Js.Null)
                  (or_intror eq_refl))).
  reflexivity.
Defined.

(** X7: a message from the configured origin whose [type] is none of the seven
    that the handler names invokes no callback, posts nothing and leaves
    the iframe as it is: the only effect it can have is a console warning,
    and outside a development build it has none. *)
Theorem unknown_type_only_warns props host iframeRef event :
  Forall (fun t => Js.get (data event) "type" ≠ Js.Str t) messageTypes ->
  Forall (fun e => isConsoleWarn e = true)
    (effects_of (handleMessage props host iframeRef event))
  /\ iframe_after props host iframeRef event = iframeRef
  /\ (NODE_ENV host ≠ "development" ->
      effects_of (handleMessage props host iframeRef event) = []).
Proof.
  intros Htypes. unfold messageTypes in Htypes.
  repeat match goal with
         | H : Forall _ (_ :: _) |- _ =>
             apply Forall_cons in H as [?%strict_eq_str_false H]
         end.
  assert (Hcases :
    handleMessage props host iframeRef event = Normal []
    \/ handleMessage props host iframeRef event = Throw
    \/ (NODE_ENV host = "development"
        /\ exists text rest,
             handleMessage props host iframeRef event
             = Normal [ConsoleWarn text rest])).
  { unfold handleMessage.
    destruct (negb (origin event =? iframeOrigin_of props)); [by left|].
    destruct (data event) eqn:Hd; auto;
      repeat match goal with
             | H : Js.strict_eq_str _ _ = false |- _ => rewrite H; clear H
             end;
      (destruct (NODE_ENV host =? "development") eqn:Hn; [|by left]);
      apply String.eqb_eq in Hn;
      (destruct (Js.to_string _); [|by right; left]);
      right; right; eauto. }
  unfold iframe_after.
  destruct Hcases as [-> | [-> | (Hn & text & rest & ->)]]; simpl;
    repeat split; try constructor; try done.
Qed.

Lemma unknown_type_only_warns_witness :
  let event := Samples.fromVana (message "unknown" ∅) in
  Forall (fun t => Js.get (data event) "type" ≠ Js.Str t) messageTypes
  /\ effects_of (handleMessage Samples.mockProps Samples.host (Some Samples.iframe) event)
     = [].
Proof.
  intros event.
  assert (H : Forall (fun t => Js.get (data event) "type" ≠ Js.Str t) messageTypes)
    by (repeat constructor; discriminate).
  split; [exact H|].
  apply (unknown_type_only_warns Samples.mockProps Samples.host (Some Samples.iframe)
           event H).
  discriminate.
Defined.

Lemma foldl_perform_keeps_element host effects : forall iframe,
  exists height,
    foldl (perform host) (Some iframe) effects
    = Some {| contentWindow := contentWindow iframe; style_height := height |}.
Proof.
  induction effects as [|e effects IH]; intros [w h]; simpl.
  - eauto.
  - destruct e; simpl; try apply (IH {| contentWindow := w; style_height := h |}).
    destruct (cssHeight host height) as [h'|].
    + apply (IH {| contentWindow := w; style_height := h' |}).
    + apply (IH {| contentWindow := w; style_height := h |}).
Qed.

Lemma dispatch_keeps_element props host events : forall iframe,
  exists height,
    (dispatch props host (Some iframe) events).2
    = Some {| contentWindow := contentWindow iframe; style_height := height |}.
Proof.
  induction events as [|event events IH]; intros [w h]; simpl.
  - eauto.
  - unfold iframe_after.
    destruct (foldl_perform_keeps_element host
                (effects_of (handleMessage props host
                               (Some {| contentWindow := w; style_height := h |}) event))
                {| contentWindow := w; style_height := h |}) as [h' ->].
    specialize (IH {| contentWindow := w; style_height := h' |}).
    destruct (dispatch props host _ events). exact IH.
Qed.

Lemma dispatch_app props host events1 events2 : forall iframeRef,
  (dispatch props host iframeRef (events1 ++ events2)).2
  = (dispatch props host (dispatch props host iframeRef events1).2 events2).2.
Proof.
  induction events1 as [|event events1 IH]; intros iframeRef; simpl; [reflexivity|].
  specialize (IH (iframe_after props host iframeRef event)).
  destruct (dispatch props host _ (events1 ++ events2)).
  destruct (dispatch props host _ events1). exact IH.
Qed.

(** X8: only a [resize] message changes the iframe element, and it changes
    nothing but the height: after any other message the element is as it
    was, and after a [resize] message it has its content window, or the
    lack of it, as before. *)
Theorem only_resize_touches_iframe props host iframeRef event :
  (Js.get (data event) "type" ≠ Js.Str "resize" ->
   iframe_after props host iframeRef event = iframeRef)
  /\ hasContentWindow (iframe_after props host iframeRef event)
     = hasContentWindow iframeRef
  /\ (is_Some (iframe_after props host iframeRef event) <-> is_Some iframeRef).
Proof.
  split; [|split].
  - intros Htype. unfold iframe_after, handleMessage.
    repeat case_match; try reflexivity.
    all: match goal with
         | H : Js.strict_eq_str _ "resize" = true |- _ =>
             apply strict_eq_str_true in H; contradiction
         end.
  - symmetry. apply foldl_perform_same_frame.
  - unfold iframe_after. destruct iframeRef as [iframe|].
    + destruct (foldl_perform_keeps_element host
                  (effects_of (handleMessage props host (Some iframe) event)) iframe)
        as [h ->]. split; eauto.
    + assert (H : forall effects, foldl (perform host) None effects = None).
      { induction effects as [|e effects IH]; [reflexivity|]. by destruct e. }
      by rewrite H.
Qed.

Lemma only_resize_touches_iframe_witness :
  Js.get (data Samples.completeEvent) "type" ≠ Js.Str "resize"
  /\ iframe_after Samples.mockProps Samples.host (Some Samples.iframe)
       Samples.completeEvent = Some Samples.iframe.
Proof.
  split; [discriminate|].
  apply (proj1 (only_resize_touches_iframe Samples.mockProps Samples.host
                  (Some Samples.iframe) Samples.completeEvent)).
  discriminate.
Defined.

(** X9: the last [resize] wins: after any sequence of messages that ends in a
    [resize] message from the configured origin with a truthy number as
    height (any number but 0 and NaN), the height of a mounted iframe is
    what the CSS engine makes of the text of that number suffixed with
    "px", whatever came before; and when the engine discards that text,
    the height is as the earlier messages left it. *)
Theorem last_resize_wins props host iframe history event n :
  origin event = iframeOrigin_of props ->
  Js.get (data event) "type" = Js.Str "resize" ->
  Js.get (data event) "height" = Js.Number n ->
  Js.numberTruthy n = true ->
  (forall height,
      cssHeight host (Js.numberToString n +:+ "px") = Some height ->
      (dispatch props host (Some iframe) (history ++ [event])).2
      = Some {| contentWindow := contentWindow iframe; style_height := height |})
  /\ (cssHeight host (Js.numberToString n +:+ "px") = None ->
      (dispatch props host (Some iframe) (history ++ [event])).2
      = (dispatch props host (Some iframe) history).2).
Proof.
  intros Horigin Htype Hheight Hn.
  rewrite dispatch_app.
  destruct (dispatch_keeps_element props host history iframe) as [h ->].
  simpl. unfold iframe_after.
  assert (H : handleMessage props host
                (Some {| contentWindow := contentWindow iframe; style_height := h |}) event
              = Normal [SetStyleHeight (Js.numberToString n +:+ "px")]).
  { enter_switch event Horigin Htype. cbn [data] in Hheight.
    rewrite Hheight. cbn [Js.truthy Js.to_string]. by rewrite Hn. }
  rewrite H. simpl. split.
  - by intros height ->.
  - by intros ->.
Qed.

Lemma last_resize_wins_witness :
  origin (Samples.resizeEvent (Js.Int 500 I)) = iframeOrigin_of Samples.mockProps
  /\ Js.get (data (Samples.resizeEvent (Js.Int 500 I))) "type" = Js.Str "resize"
  /\ Js.get (data (Samples.resizeEvent (Js.Int 500 I))) "height"
     = Js.Number (Js.Int 500 I)
  /\ Js.numberTruthy (Js.Int 500 I) = true
  /\ cssHeight Samples.host (Js.numberToString (Js.Int 500 I) +:+ "px") = Some "500px"
  /\ (dispatch Samples.mockProps Samples.host (Some Samples.iframe)
        ([Samples.resizeEvent (Js.Int 750 I); Samples.completeEvent]
         ++ [Samples.resizeEvent (Js.Int 500 I)])).2
     = Some {| contentWindow := true; style_height := "500px" |}.
Proof.
  split; [reflexivity|]. split; [reflexivity|]. split; [reflexivity|].
  split; [reflexivity|]. split; [reflexivity|].
  apply (proj1 (last_resize_wins Samples.mockProps Samples.host Samples.iframe
                  [Samples.resizeEvent (Js.Int 750 I); Samples.completeEvent]
                  (Samples.resizeEvent (Js.Int 500 I)) (Js.Int 500 I)
                  eq_refl eq_refl eq_refl eq_refl) "500px" eq_refl).
Defined.

Lemma foreign_event_skipped props host iframeRef event :
  origin event ≠ iframeOrigin_of props ->
  handleMessage props host iframeRef event = Normal []
  /\ iframe_after props host iframeRef event = iframeRef.
Proof.
  intros Hne%String.eqb_neq.
  assert (H : handleMessage props host iframeRef event = Normal [])
    by (unfold handleMessage; by rewrite Hne).
  split; [exact H|]. unfold iframe_after. by rewrite H.
Qed.

(** X10: messages from other origins are invisible in a sequence too: with them
    taken out, the same effects happen in the same order and the iframe
    element ends up the same. *)
Theorem foreign_messages_are_invisible props host history : forall iframeRef,
  let own := filter (fun event => origin event = iframeOrigin_of props) history in
  (dispatch props host iframeRef history).2 = (dispatch props host iframeRef own).2
  /\ concat (effects_of <$> (dispatch props host iframeRef history).1)
     = concat (effects_of <$> (dispatch props host iframeRef own).1).
Proof.
  induction history as [|event history IH]; intros iframeRef; [done|].
  cbn zeta. rewrite filter_cons.
  destruct (decide (origin event = iframeOrigin_of props)) as [Ho|Ho].
  - cbn [dispatch].
    specialize (IH (iframe_after props host iframeRef event)). cbn zeta in IH.
    destruct (dispatch props host _ history) as [cs final].
    destruct (dispatch props host _ (filter _ history)) as [cs' final'].
    cbn [fst snd] in *. destruct IH as [IH1 IH2].
    split; [exact IH1|]. rewrite !fmap_cons. cbn [concat]. by rewrite IH2.
  - destruct (foreign_event_skipped props host iframeRef event Ho) as [Hh Ha].
    cbn [dispatch]. rewrite Ha, Hh. specialize (IH iframeRef). cbn zeta in IH.
    destruct (dispatch props host iframeRef history) as [cs final].
    cbn [fst snd] in *. rewrite fmap_cons. exact IH.
Qed.

End RouterProperties.

(** * Further properties of the share widget *)

Module ShareProperties.
Import JsString SharePlatforms ObserveShare JsStringProofs ShareProofs.

(** ** The encoding of the text in the share URL *)

Lemma has_char_append c a b : has_char c (a +:+ b) = has_char c a || has_char c b.
Proof.
  induction a as [|x a IH]; [reflexivity|].
  change (String x a +:+ b) with (String x (a +:+ b)).
  simpl. rewrite IH. apply orb_assoc.
Qed.

Lemma length_append a b :
  String.length (a +:+ b) = String.length a + String.length b.
Proof.
  induction a as [|x a IH]; [reflexivity|].
  change (String x a +:+ b) with (String x (a +:+ b)). simpl. by rewrite IH.
Qed.

Lemma all_chars_has_char p c s :
  all_chars p s = true -> has_char c s = true -> p c = true.
Proof.
  induction s as [|x s IH]; simpl; [discriminate|].
  intros [Hx Hs]%andb_true_iff [Hc|Hc]%orb_true_iff; [|by apply IH].
  apply Ascii.eqb_eq in Hc. by subst.
Qed.

Lemma hexDigit_unreserved n : unreserved (hexDigit n) = true.
Proof. do 16 (destruct n as [|n]; [reflexivity|]). reflexivity. Qed.

Lemma hexDigit_inj a b : a < 16 -> b < 16 -> hexDigit a = hexDigit b -> a = b.
Proof.
  intros Ha Hb.
  do 16 (destruct a as [|a];
         [do 16 (destruct b as [|b]; [first [reflexivity | discriminate]|]); lia|]).
  lia.
Qed.

Lemma hex_digits_inj x y :
  hexDigit (nat_of_ascii x / 16) = hexDigit (nat_of_ascii y / 16) ->
  hexDigit (nat_of_ascii x mod 16) = hexDigit (nat_of_ascii y mod 16) ->
  x = y.
Proof.
  intros H1 H2.
  pose proof (nat_ascii_bounded x) as Bx. pose proof (nat_ascii_bounded y) as By.
  apply hexDigit_inj in H1;
    [|apply Nat.Div0.div_lt_upper_bound; lia|apply Nat.Div0.div_lt_upper_bound; lia].
  apply hexDigit_inj in H2; [|apply Nat.mod_upper_bound; lia..].
  assert (Hn : nat_of_ascii x = nat_of_ascii y).
  { rewrite (Nat.div_mod_eq (nat_of_ascii x) 16), (Nat.div_mod_eq (nat_of_ascii y) 16).
    by rewrite H1, H2. }
  rewrite <- (ascii_nat_embedding x), <- (ascii_nat_embedding y). by rewrite Hn.
Qed.

Lemma encoded_alphabet s :
  all_chars (fun c => unreserved c || Ascii.eqb c "%") (encodeURIComponent s) = true.
Proof.
  induction s as [|x s IH]; [reflexivity|]. simpl.
  destruct (unreserved x) eqn:Hx; simpl.
  - by rewrite Hx, IH.
  - by rewrite !hexDigit_unreserved, IH.
Qed.

(** X11: the encoded text is made of unreserved characters and [%] only: it has
    no [&], [=], [?], [#], [/], [+] and no space, and so never adds a
    parameter, a path or a fragment to the share URL; the share URL of
    every platform is free of [#] and of spaces, whatever the text. *)
Theorem encoded_text_is_url_safe s origin platform c :
  all_chars (fun c => unreserved c || Ascii.eqb c "%") (encodeURIComponent s) = true
  /\ (c ∈ ["&"; "="; "?"; "#"; "/"; "+"; " "]%char ->
      has_char c (encodeURIComponent s) = false)
  /\ has_char "#" (getUrl origin platform s) = false
  /\ has_char " " (getUrl origin platform s) = false.
Proof.
  assert (Hfree : forall d t, unreserved d || Ascii.eqb d "%" = false ->
                              has_char d (encodeURIComponent t) = false).
  { intros d t Hd. destruct (has_char d (encodeURIComponent t)) eqn:E; [|reflexivity].
    pose proof (all_chars_has_char _ _ _ (encoded_alphabet t) E) as H.
    simpl in H. congruence. }
  split; [apply encoded_alphabet|]. split.
  - intros Hc. apply Hfree.
    repeat (apply elem_of_cons in Hc as [-> | Hc]; [reflexivity|]).
    by apply elem_of_nil in Hc.
  - split; destruct platform; unfold getUrl;
      rewrite ?has_char_append, ?Hfree by reflexivity; reflexivity.
Qed.

Lemma encoded_text_is_url_safe_witness :
  "&"%char ∈ ["&"; "="; "?"; "#"; "/"; "+"; " "]%char
  /\ has_char "&" (encodeURIComponent "Test & Content <script>") = false.
Proof.
  assert (H : "&"%char ∈ ["&"; "="; "?"; "#"; "/"; "+"; " "]%char) by constructor.
  split; [exact H|].
  apply (proj1 (proj2 (encoded_text_is_url_safe "Test & Content <script>"
                         "http://localhost:3000" twitter "&"%char)) H).
Defined.

(** The encoding loses nothing: two texts with the same encoding are the
    same text. *)
Theorem encodeURIComponent_injective s t :
  encodeURIComponent s = encodeURIComponent t -> s = t.
Proof.
  revert t. induction s as [|x s IH]; intros [|y t]; cbn [encodeURIComponent].
  - reflexivity.
  - destruct (unreserved y); discriminate.
  - destruct (unreserved x); discriminate.
  - destruct (unreserved x) eqn:Hx, (unreserved y) eqn:Hy.
    + intros [= -> H]. f_equal. by apply IH.
    + intros [= -> _]. discriminate.
    + intros [= <- _]. discriminate.
    + intros [= H1 H2 H]. f_equal; [|by apply IH].
      exact (hex_digits_inj x y H1 H2).
Qed.

(** X12: the share URL of twitter, facebook and linkedin determines the text:
    two texts with the same URL are the same text.  The URL of instagram
    is the same for every text. *)
Theorem share_url_determines_text origin platform s t :
  (platform ≠ instagram ->
   getUrl origin platform s = getUrl origin platform t -> s = t)
  /\ getUrl origin instagram s = getUrl origin instagram t.
Proof.
  split; [|reflexivity].
  intros Hp H. apply encodeURIComponent_injective.
  destruct platform; unfold getUrl in H; [| | |done].
  - by apply String.app_inj in H.
  - by do 3 apply String.app_inj in H.
  - by apply String.app_inj in H.
Qed.

Lemma share_url_determines_text_witness :
  twitter ≠ instagram
  /\ getUrl "http://localhost:3000" twitter "Test content"
     = getUrl "http://localhost:3000" twitter "Test content"
  /\ "Test content" = "Test content".
Proof.
  split; [discriminate|]. split; [reflexivity|].
  apply (proj1 (share_url_determines_text "http://localhost:3000" twitter
                  "Test content" "Test content")); [discriminate | reflexivity].
Defined.

(** ** What a click reports to the host page *)

(** X13: a click writes to the clipboard first.  It then reports the platform
    to [onShare], if supplied, under its lower-case tag, and to
    [onCopySuccess], if supplied, with the very text it copied (and, in the
    decorated version, the delay of 3000 ms); a callback that is not
    supplied is not called. *)
Theorem click_reports_platform dprops sprops origin toastTimerRef timer platform :
  let deffects := (Decorated.handleClick dprops origin toastTimerRef timer platform).1 in
  let seffects := (Suffix.handleClick sprops toastTimerRef timer platform).1 in
  head deffects = Some (Decorated.WriteText (Decorated.generateShareText dprops platform))
  /\ omap decoratedShares deffects
     = (if Decorated.onShare dprops then [platformName platform] else [])
  /\ omap decoratedCopies deffects
     = (if Decorated.onCopySuccess dprops
        then [(platformName platform, Decorated.generateShareText dprops platform, 3000%Z)]
        else [])
  /\ head seffects = Some (Suffix.WriteText (Suffix.generateShareText sprops))
  /\ omap suffixShares seffects
     = (if Suffix.onShare sprops then [platformName platform] else [])
  /\ omap suffixCopies seffects
     = (if Suffix.onCopySuccess sprops
        then [(platformName platform, Suffix.generateShareText sprops)]
        else []).
Proof.
  unfold Decorated.handleClick, Decorated.copyAndOpenWithCountdown,
    Suffix.handleClick, Suffix.copyAndShowInstructions.
  destruct (Decorated.onShare dprops), (Decorated.onCopySuccess dprops),
    (Suffix.hideToast_of sprops), (Suffix.onShare sprops),
    (Suffix.onCopySuccess sprops), toastTimerRef, platform;
    repeat split; reflexivity.
Qed.

(** X14: with [hideToast] the suffix version still copies the text, and it
    neither shows a toast nor touches a timer: [toastTimerRef] stays as it
    was.  Without it, every click shows the toast once, clears the timeout
    that is pending, if there is one, and no other, arms exactly one
    timeout, of [toastDuration] ms (4000 when the caller gives none), and
    keeps its handle in [toastTimerRef]. *)
Theorem hidden_toast_arms_no_timer props toastTimerRef timer platform :
  let result := Suffix.handleClick props toastTimerRef timer platform in
  let ms :=
    match Suffix.toastDuration props with
    | Some given => given
    | None => 4000%Z
    end in
  (Suffix.hideToast props = Some true ->
   Suffix.clipboardWrites result.1 = [Suffix.generateShareText props]
   /\ filter (fun e => suffixTouchesToast e = true) result.1 = []
   /\ result.2 = toastTimerRef)
  /\ (Suffix.hideToast props = None \/ Suffix.hideToast props = Some false ->
      omap suffixToasts result.1
      = [{| Suffix.title := "Copied to clipboard!";
            Suffix.description := "Now go to " +:+ displayName platform
                                  +:+ " and paste your message to share.";
            Suffix.duration := ms |}]
      /\ omap suffixArms result.1 = [(timer, ms)]
      /\ omap suffixClears result.1
         = match toastTimerRef with
           | Some old => [old]
           | None => []
           end
      /\ result.2 = Some timer).
Proof.
  unfold Suffix.handleClick, Suffix.copyAndShowInstructions,
    Suffix.hideToast_of, Suffix.toastDuration_of.
  split.
  - intros ->. cbn.
    by destruct (Suffix.onShare props), (Suffix.onCopySuccess props).
  - intros Hhide.
    assert (Hh : default false (Suffix.hideToast props) = false)
      by (by destruct Hhide as [-> | ->]).
    rewrite Hh. clear Hhide Hh.
    destruct (Suffix.toastDuration props), (Suffix.onShare props),
      (Suffix.onCopySuccess props), toastTimerRef; repeat split; reflexivity.
Qed.

Lemma hidden_toast_arms_no_timer_witness :
  Suffix.hideToast Samples.suffixProps = None
  /\ omap suffixArms (Suffix.handleClick Samples.suffixProps (Some 3) 7 twitter).1
     = [(7, 4000%Z)]
  /\ omap suffixClears (Suffix.handleClick Samples.suffixProps (Some 3) 7 twitter).1
     = [3].
Proof.
  split; [reflexivity|].
  destruct (proj2 (hidden_toast_arms_no_timer Samples.suffixProps (Some 3) 7 twitter)
              (or_introl eq_refl)) as (_ & Harms & Hclears & _).
  split; [exact Harms | exact Hclears].
Defined.

(** ** What the composed text holds *)

Lemma prefix_append w b : String.prefix w (w +:+ b) = true.
Proof.
  induction w as [|x w IH]; [by destruct b|].
  change (String x w +:+ b) with (String x (w +:+ b)). simpl.
  by destruct (ascii_dec x x).
Qed.

Lemma prefix_append_l w : forall a b,
  String.prefix w a = true -> String.prefix w (a +:+ b) = true.
Proof.
  induction w as [|x w IH]; intros a b H; [by destruct (a +:+ b)|].
  destruct a as [|y a]; [discriminate|].
  change (String y a +:+ b) with (String y (a +:+ b)). simpl in *.
  destruct (ascii_dec x y); [by apply IH | discriminate].
Qed.

Lemma includes_anything_empty s : includes s "" = true.
Proof. by destruct s. Qed.

Lemma includes_self w : includes w w = true.
Proof.
  destruct w as [|x w]; [reflexivity|].
  rewrite includes_cons.
  pose proof (prefix_append (String x w) "") as H.
  rewrite append_empty_r in H. by rewrite H.
Qed.

Lemma includes_append_r a b w : includes b w = true -> includes (a +:+ b) w = true.
Proof.
  intros H. induction a as [|x a IH]; [exact H|].
  change (String x a +:+ b) with (String x (a +:+ b)).
  rewrite includes_cons, IH. apply orb_true_r.
Qed.

Lemma includes_append_l a b w : includes a w = true -> includes (a +:+ b) w = true.
Proof.
  induction a as [|x a IH]; intros H.
  - rewrite includes_empty in H. apply String.eqb_eq in H. subst.
    apply includes_anything_empty.
  - change (String x a +:+ b) with (String x (a +:+ b)).
    rewrite includes_cons in H. rewrite includes_cons.
    apply orb_true_iff in H as [H|H]; apply orb_true_iff.
    + left. change (String x (a +:+ b)) with (String x a +:+ b).
      by apply prefix_append_l.
    + right. by apply IH.
Qed.

(** X15: the composed text holds what the caller gave, as given: in the
    decorated version the app name and the content, the emoji, the note
    and the hashtag when given, on every platform, and the call-to-action
    when given on twitter and linkedin, with "#DATAREVOLUTION" and
    "Try @ app.vana.com" standing in for a hashtag or a call-to-action
    that is not given; in the suffix version the content, with which the
    text starts, and the suffix when given, or the default suffix. *)
Theorem composed_text_includes_inputs dprops sprops platform :
  let dtext := Decorated.generateShareText dprops platform in
  let stext := Suffix.generateShareText sprops in
  includes dtext (Decorated.appName dprops) = true
  /\ includes dtext (Decorated.shareContent dprops) = true
  /\ (forall emoji, Decorated.shareEmoji dprops = Some emoji ->
      includes dtext emoji = true)
  /\ (forall note, Decorated.funnyNote dprops = Some note ->
      includes dtext note = true)
  /\ (forall tag, Decorated.hashtag dprops = Some tag -> includes dtext tag = true)
  /\ (Decorated.hashtag dprops = None -> includes dtext "#DATAREVOLUTION" = true)
  /\ (platform = twitter \/ platform = linkedin ->
      (forall given, Decorated.callToAction dprops = Some given ->
                     includes dtext given = true)
      /\ (Decorated.callToAction dprops = None ->
          includes dtext "Try @ app.vana.com" = true))
  /\ String.prefix (Suffix.shareContent sprops) stext = true
  /\ includes stext (Suffix.shareContent sprops) = true
  /\ (forall given, Suffix.suffix sprops = Some given -> includes stext given = true)
  /\ (Suffix.suffix sprops = None ->
      includes stext (LF +:+ LF +:+ "Try @ app.vana.com" +:+ LF +:+ "#datarevolution")
      = true).
Proof.
  intros dtext stext. subst dtext stext.
  unfold Decorated.generateShareText, Suffix.generateShareText,
    Decorated.shareEmoji_of, Decorated.funnyNote_of, Decorated.hashtag_of,
    Decorated.callToAction_of, Suffix.suffix_of.
  repeat split.
  - apply includes_append_l, includes_append_r, includes_append_l, includes_self.
  - apply includes_append_r, includes_append_l, includes_append_r, includes_self.
  - intros emoji ->. cbn [default from_option id].
    apply includes_append_r, includes_append_l, includes_append_l.
    destruct (negb (emoji =? "")) eqn:E.
    + apply includes_append_l, includes_self.
    + apply negb_false_iff, String.eqb_eq in E. rewrite E. reflexivity.
  - intros note ->. cbn [default from_option id].
    apply includes_append_r, includes_append_r, includes_append_l.
    destruct (negb (note =? "")) eqn:E.
    + do 2 apply includes_append_r. apply includes_self.
    + apply negb_false_iff, String.eqb_eq in E. rewrite E. reflexivity.
  - intros tag ->. do 5 apply includes_append_r. apply includes_self.
  - intros ->. do 5 apply includes_append_r. apply includes_self.
  - intros given ->. do 3 apply includes_append_r. apply includes_append_l.
    destruct H as [-> | ->]; do 2 apply includes_append_r; apply includes_self.
  - intros ->. do 3 apply includes_append_r. apply includes_append_l.
    destruct H as [-> | ->]; do 2 apply includes_append_r; apply includes_self.
  - apply prefix_append.
  - apply includes_append_l, includes_self.
  - intros given ->. apply includes_append_r, includes_self.
  - intros ->. apply includes_append_r, includes_self.
Qed.

Lemma composed_text_includes_inputs_witness :
  (twitter = twitter \/ twitter = linkedin)
  /\ Decorated.callToAction Samples.campaignProps = Some "Join at app.vana.com/join"
  /\ Decorated.hashtag Samples.campaignProps = Some "#OWNYOURDATA"
  /\ includes (Decorated.generateShareText Samples.campaignProps twitter)
       "Join at app.vana.com/join" = true
  /\ includes (Decorated.generateShareText Samples.campaignProps twitter)
       "#OWNYOURDATA" = true.
Proof.
  split; [by left|]. split; [reflexivity|]. split; [reflexivity|].
  destruct (composed_text_includes_inputs Samples.campaignProps Samples.suffixProps
              twitter) as (_ & _ & _ & _ & Htag & _ & Hcta & _).
  split.
  - exact (proj1 (Hcta (or_introl eq_refl)) _ eq_refl).
  - exact (Htag _ eq_refl).
Defined.

(** ** The rewriting of the call-to-action *)

Lemma replace_absent s searchValue replaceValue :
  includes s searchValue = false -> replace s searchValue replaceValue = s.
Proof. unfold includes, replace. by destruct (index 0 searchValue s). Qed.

Lemma replaced_length s :
  includes s "app.vana.com" = true ->
  String.length (replace s "app.vana.com" "https://app.vana.com")
  = String.length s + 8.
Proof.
  induction s as [|x s IH]; intros H; [discriminate|].
  rewrite replace_cons. rewrite includes_cons in H.
  destruct (String.prefix "app.vana.com" (String x s)) eqn:Hp.
  - apply prefix_split in Hp. set (rest := substring _ _ _) in *.
    clearbody rest. rewrite Hp, !length_append. simpl. lia.
  - simpl in H. simpl. rewrite IH by exact H. lia.
Qed.

(** X16: twitter and linkedin get one text, instagram and facebook another.
    The two are the same text when the call-to-action has no
    "app.vana.com" in it; when it has, the text for instagram and facebook
    is the longer by the eight characters of "https://". *)
Theorem platforms_differ_by_scheme props :
  Decorated.generateShareText props twitter = Decorated.generateShareText props linkedin
  /\ Decorated.generateShareText props instagram
     = Decorated.generateShareText props facebook
  /\ (includes (Decorated.callToAction_of props) "app.vana.com" = false ->
      Decorated.generateShareText props instagram
      = Decorated.generateShareText props twitter)
  /\ (includes (Decorated.callToAction_of props) "app.vana.com" = true ->
      String.length (Decorated.generateShareText props instagram)
      = String.length (Decorated.generateShareText props twitter) + 8).
Proof.
  split; [reflexivity|]. split; [reflexivity|].
  unfold Decorated.generateShareText. cbv zeta iota.
  rewrite replace_after_line_feeds. split.
  - intros H. by rewrite replace_absent.
  - intros H. rewrite !length_append, replaced_length by exact H. lia.
Qed.

Lemma platforms_differ_by_scheme_witness :
  includes (Decorated.callToAction_of Samples.decoratedProps) "app.vana.com" = true
  /\ String.length (Decorated.generateShareText Samples.decoratedProps instagram)
     = String.length (Decorated.generateShareText Samples.decoratedProps twitter) + 8.
Proof.
  split; [reflexivity|].
  apply (platforms_differ_by_scheme Samples.decoratedProps). reflexivity.
Defined.

Lemma prefix_within w : forall a b,
  String.length w <= String.length a ->
  String.prefix w (a +:+ b) = String.prefix w a.
Proof.
  induction w as [|x w IH]; intros a b Hlen.
  { destruct (a +:+ b); by destruct a. }
  destruct a as [|y a]; [simpl in Hlen; lia|].
  change (String y a +:+ b) with (String y (a +:+ b)). simpl.
  destruct (ascii_dec x y); [|reflexivity].
  apply IH. simpl in Hlen. lia.
Qed.

Lemma replace_first a b :
  includes (a +:+ "app.vana.co") "app.vana.com" = false ->
  replace (a +:+ "app.vana.com" +:+ b) "app.vana.com" "https://app.vana.com"
  = a +:+ "https://app.vana.com" +:+ b.
Proof.
  induction a as [|x a IH]; intros H.
  - change ("" +:+ ?t) with t.
    change ("app.vana.com" +:+ b) with (String "a" ("pp.vana.com" +:+ b)).
    rewrite replace_cons.
    change (String "a" ("pp.vana.com" +:+ b)) with ("app.vana.com" +:+ b).
    rewrite prefix_append, length_append.
    change (String.length "app.vana.com") with 12.
    replace (12 + String.length b - 12) with (String.length b) by lia.
    change (substring 12 (String.length b) ("app.vana.com" +:+ b))
      with (substring 0 (String.length b) b).
    by rewrite substring_all.
  - change (String x a +:+ ?t) with (String x (a +:+ t)) in *.
    rewrite includes_cons in H. apply orb_false_iff in H as [Hp H].
    rewrite replace_cons.
    assert (Hp' : String.prefix "app.vana.com"
                    (String x (a +:+ "app.vana.com" +:+ b)) = false).
    { change (String x (a +:+ "app.vana.com" +:+ b))
        with (String x a +:+ "app.vana.co" +:+ String "m" b).
      rewrite <- append_assoc.
      rewrite prefix_within; [exact Hp|].
      rewrite length_append. simpl. lia. }
    rewrite Hp'. by rewrite IH.
Qed.

(** X17: only the first "app.vana.com" of the call-to-action is rewritten for
    instagram and facebook, and it is rewritten whether or not a scheme
    stands before it already: with the call-to-action [a ++ "app.vana.com"
    ++ b], where no occurrence begins within [a], the text for instagram is
    the text that twitter gets for [a ++ "https://app.vana.com" ++ b];
    what [b] holds is left as it is. *)
Theorem first_domain_is_rewritten props a b :
  Decorated.callToAction props = Some (a +:+ "app.vana.com" +:+ b) ->
  includes (a +:+ "app.vana.co") "app.vana.com" = false ->
  Decorated.generateShareText props instagram
  = Decorated.generateShareText
      {| Decorated.appName := Decorated.appName props;
         Decorated.shareContent := Decorated.shareContent props;
         Decorated.shareEmoji := Decorated.shareEmoji props;
         Decorated.funnyNote := Decorated.funnyNote props;
         Decorated.callToAction := Some (a +:+ "https://app.vana.com" +:+ b);
         Decorated.hashtag := Decorated.hashtag props;
         Decorated.onCopySuccess := Decorated.onCopySuccess props;
         Decorated.onShare := Decorated.onShare props |}
      twitter.
Proof.
  intros Hcta Hfirst.
  unfold Decorated.generateShareText, Decorated.shareEmoji_of, Decorated.funnyNote_of,
    Decorated.callToAction_of, Decorated.hashtag_of.
  cbn [Decorated.appName Decorated.shareContent Decorated.shareEmoji Decorated.funnyNote
       Decorated.callToAction Decorated.hashtag].
  rewrite Hcta. cbn [default from_option id]. cbv zeta iota.
  by rewrite replace_after_line_feeds, replace_first.
Qed.

Lemma first_domain_is_rewritten_witness :
  let props :=
    {| Decorated.appName := "Test App"; Decorated.shareContent := "Test content";
       Decorated.shareEmoji := None; Decorated.funnyNote := None;
       Decorated.callToAction :=
         Some ("Visit https://" +:+ "app.vana.com" +:+ " or app.vana.com");
       Decorated.hashtag := None;
       Decorated.onCopySuccess := false; Decorated.onShare := false |} in
  includes ("Visit https://" +:+ "app.vana.co") "app.vana.com" = false
  /\ includes (Decorated.generateShareText props instagram)
       "Visit https://https://app.vana.com or app.vana.com" = true.
Proof.
  intros props. split; [reflexivity|].
  rewrite (first_domain_is_rewritten props "Visit https://" " or app.vana.com"
             eq_refl eq_refl).
  reflexivity.
Defined.

(** ** The toast timer *)

Lemma decorated_click_step props origin st timer platform :
  DecoratedTimers.step props origin st (DecoratedTimers.Click timer platform)
  = {| DecoratedTimers.toastTimerRef := Some timer;
       DecoratedTimers.pending :=
         match DecoratedTimers.toastTimerRef st with
         | Some old => ({[timer]} ∪ DecoratedTimers.pending st) ∖ {[old]}
         | None => {[timer]} ∪ DecoratedTimers.pending st
         end |}.
Proof.
  unfold DecoratedTimers.step, Decorated.handleClick, Decorated.copyAndOpenWithCountdown.
  by destruct (Decorated.onShare props), (Decorated.onCopySuccess props),
    (DecoratedTimers.toastTimerRef st).
Qed.

Lemma decorated_step_invariant props origin st ev :
  (forall t, t ∈ DecoratedTimers.pending st -> DecoratedTimers.toastTimerRef st = Some t) ->
  forall t, t ∈ DecoratedTimers.pending (DecoratedTimers.step props origin st ev) ->
            DecoratedTimers.toastTimerRef (DecoratedTimers.step props origin st ev) = Some t.
Proof.
  intros Hinv t. destruct ev as [timer platform|timer].
  - rewrite decorated_click_step. simpl.
    destruct (DecoratedTimers.toastTimerRef st) as [old|] eqn:Href.
    + intros [[Ht|Ht]%elem_of_union Hold]%elem_of_difference.
      * apply elem_of_singleton in Ht. by subst.
      * apply Hinv in Ht. injection Ht as ->. by apply not_elem_of_singleton in Hold.
    + intros [Ht|Ht]%elem_of_union.
      * apply elem_of_singleton in Ht. by subst.
      * by apply Hinv in Ht.
  - simpl. intros [Ht _]%elem_of_difference. by apply Hinv.
Qed.

Lemma decorated_run_invariant props origin events : forall st,
  (forall t, t ∈ DecoratedTimers.pending st -> DecoratedTimers.toastTimerRef st = Some t) ->
  forall t, t ∈ DecoratedTimers.pending (DecoratedTimers.run props origin st events) ->
            DecoratedTimers.toastTimerRef (DecoratedTimers.run props origin st events)
            = Some t.
Proof.
  induction events as [|ev events IH]; intros st Hinv; [exact Hinv|].
  apply IH. by apply decorated_step_invariant.
Qed.

(** X18: in the decorated version, whatever the sequence of clicks and of
    countdowns that run out, the only timer of the widget that can be
    pending is the one [toastTimerRef] holds, so the cleanup at unmount
    leaves no timer behind; and a click that gets a fresh handle leaves
    exactly its own countdown pending. *)
Theorem decorated_one_timer_pending props origin events timer platform :
  let st := DecoratedTimers.run props origin DecoratedTimers.initial events in
  (forall t, t ∈ DecoratedTimers.pending st -> DecoratedTimers.toastTimerRef st = Some t)
  /\ DecoratedTimers.pending (DecoratedTimers.unmount st) = ∅
  /\ (DecoratedTimers.toastTimerRef st ≠ Some timer ->
      DecoratedTimers.pending
        (DecoratedTimers.step props origin st (DecoratedTimers.Click timer platform))
      = {[timer]}).
Proof.
  intros st.
  assert (Hinv : forall t, t ∈ DecoratedTimers.pending st ->
                           DecoratedTimers.toastTimerRef st = Some t).
  { apply decorated_run_invariant. intros t Ht. by apply elem_of_empty in Ht. }
  split; [exact Hinv|]. split.
  - unfold DecoratedTimers.unmount, DecoratedTimers.cleanup. simpl.
    destruct (DecoratedTimers.toastTimerRef st) as [old|] eqn:Href; simpl.
    + apply set_eq. intros t. split; [|by intros ?%elem_of_empty].
      intros [Ht Hold]%elem_of_difference. apply Hinv in Ht. injection Ht as ->.
      by apply not_elem_of_singleton in Hold.
    + apply set_eq. intros t. split; [|by intros ?%elem_of_empty].
      intros Ht. by apply Hinv in Ht.
  - intros Hfresh. rewrite decorated_click_step. simpl.
    destruct (DecoratedTimers.toastTimerRef st) as [old|] eqn:Href.
    + apply set_eq. intros t. rewrite elem_of_difference, elem_of_union, !elem_of_singleton.
      split.
      * intros [[->|Ht] Hold]; [reflexivity|]. apply Hinv in Ht. by injection Ht as ->.
      * intros ->. split; [by left|]. intros ->. by apply Hfresh.
    + apply set_eq. intros t. rewrite elem_of_union, !elem_of_singleton.
      split; [|by left]. intros [->|Ht]; [reflexivity|]. by apply Hinv in Ht.
Qed.

Lemma decorated_one_timer_pending_witness :
  let st := DecoratedTimers.run Samples.decoratedProps "http://localhost:3000"
              DecoratedTimers.initial
              [DecoratedTimers.Click 1 twitter; DecoratedTimers.Click 2 facebook] in
  DecoratedTimers.toastTimerRef st ≠ Some 3
  /\ DecoratedTimers.pending
       (DecoratedTimers.step Samples.decoratedProps "http://localhost:3000" st
          (DecoratedTimers.Click 3 linkedin))
     = {[3]}.
Proof.
  intros st. split; [discriminate|].
  apply (decorated_one_timer_pending Samples.decoratedProps "http://localhost:3000"
           [DecoratedTimers.Click 1 twitter; DecoratedTimers.Click 2 facebook] 3 linkedin).
  discriminate.
Defined.

Lemma suffix_click_step props st timer platform :
  SuffixTimers.step props st (SuffixTimers.Click timer platform)
  = if Suffix.hideToast_of props then st
    else {| SuffixTimers.toastTimerRef := Some timer;
            SuffixTimers.pending :=
              match SuffixTimers.toastTimerRef st with
              | Some old => {[timer]} ∪ SuffixTimers.pending st ∖ {[old]}
              | None => {[timer]} ∪ SuffixTimers.pending st
              end |}.
Proof.
  unfold SuffixTimers.step, Suffix.handleClick, Suffix.copyAndShowInstructions.
  destruct st as [ref pend]. simpl.
  by destruct (Suffix.hideToast_of props), (Suffix.onShare props),
    (Suffix.onCopySuccess props), ref.
Qed.

Lemma suffix_step_invariant props st ev :
  (forall t, t ∈ SuffixTimers.pending st -> SuffixTimers.toastTimerRef st = Some t) ->
  forall t, t ∈ SuffixTimers.pending (SuffixTimers.step props st ev) ->
            SuffixTimers.toastTimerRef (SuffixTimers.step props st ev) = Some t.
Proof.
  intros Hinv t. destruct ev as [timer platform|timer].
  - rewrite suffix_click_step.
    destruct (Suffix.hideToast_of props); [by apply Hinv|]. simpl.
    destruct (SuffixTimers.toastTimerRef st) as [old|] eqn:Href.
    + intros [Ht|[Ht Hold]%elem_of_difference]%elem_of_union.
      * apply elem_of_singleton in Ht. by subst.
      * apply Hinv in Ht. injection Ht as ->. by apply not_elem_of_singleton in Hold.
    + intros [Ht|Ht]%elem_of_union.
      * apply elem_of_singleton in Ht. by subst.
      * by apply Hinv in Ht.
  - simpl. intros [Ht _]%elem_of_difference. by apply Hinv.
Qed.

Lemma suffix_run_invariant props events : forall st,
  (forall t, t ∈ SuffixTimers.pending st -> SuffixTimers.toastTimerRef st = Some t) ->
  forall t, t ∈ SuffixTimers.pending (SuffixTimers.run props st events) ->
            SuffixTimers.toastTimerRef (SuffixTimers.run props st events) = Some t.
Proof.
  induction events as [|ev events IH]; intros st Hinv; [exact Hinv|].
  apply IH. by apply suffix_step_invariant.
Qed.

(** X19: in the suffix version likewise: after any sequence of clicks and of
    timeouts that fire, the only timeout that can be pending is the one
    [toastTimerRef] holds, and the cleanup at unmount leaves none; with
    [hideToast] no timeout is ever armed. *)
Theorem suffix_one_timer_pending props events :
  let st := SuffixTimers.run props SuffixTimers.initial events in
  (forall t, t ∈ SuffixTimers.pending st -> SuffixTimers.toastTimerRef st = Some t)
  /\ SuffixTimers.pending (SuffixTimers.unmount st) = ∅
  /\ (Suffix.hideToast props = Some true -> SuffixTimers.pending st = ∅).
Proof.
  intros st.
  assert (Hinv : forall t, t ∈ SuffixTimers.pending st ->
                           SuffixTimers.toastTimerRef st = Some t).
  { apply suffix_run_invariant. intros t Ht. by apply elem_of_empty in Ht. }
  split; [exact Hinv|]. split.
  - unfold SuffixTimers.unmount, SuffixTimers.cleanup. simpl.
    destruct (SuffixTimers.toastTimerRef st) as [old|] eqn:Href; simpl.
    + apply set_eq. intros t. split; [|by intros ?%elem_of_empty].
      intros [Ht Hold]%elem_of_difference. apply Hinv in Ht. injection Ht as ->.
      by apply not_elem_of_singleton in Hold.
    + apply set_eq. intros t. split; [|by intros ?%elem_of_empty].
      intros Ht. by apply Hinv in Ht.
  - intros Hhide. clear Hinv. subst st.
    assert (Hgen : forall st0, SuffixTimers.pending st0 = ∅ ->
                     SuffixTimers.pending (SuffixTimers.run props st0 events) = ∅).
    { induction events as [|ev events IH]; intros st0 H0; [exact H0|].
      apply IH. change (SuffixTimers.pending (SuffixTimers.step props st0 ev) = ∅).
      destruct ev as [timer platform|timer].
      - rewrite suffix_click_step. unfold Suffix.hideToast_of. by rewrite Hhide.
      - simpl. rewrite H0. apply set_eq. intros t.
        split; [by intros [? _]%elem_of_difference | by intros ?%elem_of_empty]. }
    by apply Hgen.
Qed.

Lemma suffix_one_timer_pending_witness :
  let props :=
    {| Suffix.shareContent := "Test content"; Suffix.suffix := None;
       Suffix.hideToast := Some true; Suffix.toastDuration := None;
       Suffix.onCopySuccess := false; Suffix.onShare := false |} in
  Suffix.hideToast props = Some true
  /\ SuffixTimers.pending
       (SuffixTimers.run props SuffixTimers.initial
          [SuffixTimers.Click 1 twitter; SuffixTimers.Click 2 facebook]) = ∅.
Proof.
  intros props. split; [reflexivity|].
  apply (suffix_one_timer_pending props
           [SuffixTimers.Click 1 twitter; SuffixTimers.Click 2 facebook]).
  reflexivity.
Defined.

End ShareProperties.
